(** * PlumeActionStores: Kafka and cloud-health actions

    A shallow embedding of the action layer ([kafka/actions/jobs.py],
    [kafka/actions/consumer_groups.py], [kafka/actions/topics.py],
    [cloud_health/actions/specific.py]) and the properties of its
    specification.

    Python [str] values are modelled by [string]; every character stands
    for the code point with the same number (the Latin-1 range).  Python
    [int] is [Z].  Code that calls the CI service runs in a small
    reader, state and exception monad: it reads the behaviour of the
    service and of the libraries ([Runtime]), records every outgoing call
    and the wall clock ([World]) and either returns or raises.  Calls to
    the logger have no effect on any result and are left out. *)

From Stdlib Require Import ZArith List String Ascii Bool Lia.
From Stdlib Require Import DecimalString.
Import ListNotations.

Set Warnings "-register-all".

Open Scope string_scope.
Open Scope Z_scope.

(** ** Python string primitives used by the parsers *)

Module PyStr.

(** The carriage-return and line-feed characters. *)
Definition CR : string := String (ascii_of_nat 13) "".
Definition LF : string := String (ascii_of_nat 10) "".

(** [str.isspace] on one code point below 256: TAB..CR, FS..US, space,
    NEL and NBSP. *)
Definition isspace (c : ascii) : bool :=
  let n := Z.of_nat (nat_of_ascii c) in
  ((9 <=? n) && (n <=? 13)) || ((28 <=? n) && (n <=? 32))
  || (n =? 133) || (n =? 160).

Fixpoint lstrip (s : string) : string :=
  match s with
  | "" => ""
  | String c s' => if isspace c then lstrip s' else s
  end.

Fixpoint rstrip (s : string) : string :=
  match s with
  | "" => ""
  | String c s' =>
      match rstrip s' with
      | "" => if isspace c then "" else String c ""
      | r => String c r
      end
  end.

(** [s.strip()] *)
Definition strip (s : string) : string := rstrip (lstrip s).

(** [s.split()] with no separator: runs of whitespace separate the
    words and no empty word is produced.  [cur] is the word being read. *)
Fixpoint split_ws_from (s cur : string) : list string :=
  match s with
  | "" => match cur with "" => [] | _ => [cur] end
  | String c s' =>
      if isspace c
      then match cur with
           | "" => split_ws_from s' ""
           | _ => cur :: split_ws_from s' ""
           end
      else split_ws_from s' (cur ++ String c "")
  end.

Definition split_ws (s : string) : list string := split_ws_from s "".

(** [s.split(sep)] for a non-empty [sep]: left to right, matches do not
    overlap, and empty pieces are kept.  [skip] counts the characters of
    a matched separator still to pass over. *)
Fixpoint split_from (sep s cur : string) (skip : nat) : list string :=
  match s with
  | "" => [cur]
  | String c s' =>
      match skip with
      | S k => split_from sep s' cur k
      | O =>
          if prefix sep s
          then cur :: split_from sep s' "" (Nat.pred (length sep))
          else split_from sep s' (cur ++ String c "") O
      end
  end.

Definition split (sep s : string) : list string := split_from sep s "" O.

(** [s.find(sub)]: the lowest index at which [sub] occurs, or -1. *)
Fixpoint find_from (sub s : string) (i : Z) : Z :=
  if prefix sub s then i
  else match s with
       | "" => -1
       | String _ s' => find_from sub s' (i + 1)
       end.

Definition find (s sub : string) : Z := find_from sub s 0.

Fixpoint drop (n : nat) (s : string) : string :=
  match n, s with
  | O, _ => s
  | S n', String _ s' => drop n' s'
  | S _, "" => ""
  end.

(** The slice [s[i:]]; a negative [i] counts from the end. *)
Definition slice_from (s : string) (i : Z) : string :=
  let n := Z.of_nat (length s) in
  drop (Z.to_nat (if i <? 0 then Z.max 0 (n + i) else i)) s.

Definition is_digit (c : ascii) : bool :=
  let n := Z.of_nat (nat_of_ascii c) in (48 <=? n) && (n <=? 57).

Definition digit_value (c : ascii) : Z := Z.of_nat (nat_of_ascii c) - 48.

(** The digit part of an integer literal: digits, with single
    underscores allowed between two digits.  [after_us] holds at the
    start and after an underscore, where a digit is required.  The
    result is the value and the number of digits read. *)
Fixpoint int_digits (s : string) (acc : Z) (ndigits : nat) (after_us : bool)
  : option (Z * nat) :=
  match s with
  | "" => if after_us then None else Some (acc, ndigits)
  | String c s' =>
      if is_digit c
      then int_digits s' (10 * acc + digit_value c) (S ndigits) false
      else if Ascii.eqb c "_"
           then if after_us then None else int_digits s' acc ndigits true
           else None
  end.

(** CPython's default cap on the digits of a decimal string. *)
Definition max_str_digits : nat := 4300.

(** [int(s)] in base 10; [None] stands for [ValueError]. *)
Definition int (s : string) : option Z :=
  let t := strip s in
  let '(negative, body) :=
    match t with
    | String "+" r => (false, r)
    | String "-" r => (true, r)
    | _ => (false, t)
    end in
  match int_digits body 0 O true with
  | Some (v, n) =>
      if (n <=? max_str_digits)%nat
      then Some (if negative then - v else v)
      else None
  | None => None
  end.

(** [str(n)] for an integer. *)
Definition of_Z (n : Z) : string := NilZero.string_of_int (Z.to_int n).

End PyStr.

(** ** Python values, exceptions and the validation done by pydantic *)

Module Py.

(** A Python value as decoded from a JSON body (numbers are integers);
    [VNone] is [None], also the result of a function that returns
    nothing. *)
Inductive value : Type :=
| VNone
| VBool (b : bool)
| VInt (n : Z)
| VStr (s : string)
| VList (items : list value)
| VDict (fields : list (string * value)).

(** The exceptions that the modelled code can meet.  [RemoteError] is
    whatever the HTTP wrapper or the body decoder raises; all of them
    are subclasses of [Exception]. *)
Inductive exn : Type :=
| RemoteError (what : string)
| ValidationError (model field : string)
| KeyError (key : string)
| IndexError
| TypeError
| ValueError
| AttributeError
| UnboundLocalError (name : string).

Inductive result (A : Type) : Type :=
| Ok (a : A)
| Raise (e : exn).
Arguments Ok {A} a.
Arguments Raise {A} e.

(** Truth value of an object, as tested by [if v:]. *)
Definition truthy (v : value) : bool :=
  match v with
  | VNone => false
  | VBool b => b
  | VInt n => negb (n =? 0)
  | VStr s => negb (s =? "")%string
  | VList items => match items with [] => false | _ => true end
  | VDict fields => match fields with [] => false | _ => true end
  end.

Definition is_None (v : value) : bool :=
  match v with VNone => true | _ => false end.

Fixpoint lookup (key : string) (fields : list (string * value)) : option value :=
  match fields with
  | [] => None
  | (k, v) :: rest => if (k =? key)%string then Some v else lookup key rest
  end.

Definition is_str (key : string) (v : value) : bool :=
  match v with VStr s => (s =? key)%string | _ => false end.

(** [v[key]] for a string key. *)
Definition subscript (v : value) (key : string) : result value :=
  match v with
  | VDict fields =>
      match lookup key fields with
      | Some x => Ok x
      | None => Raise (KeyError key)
      end
  | _ => Raise TypeError
  end.

(** [v[0]] *)
Definition subscript0 (v : value) : result value :=
  match v with
  | VList (x :: _) => Ok x
  | VList [] => Raise IndexError
  | VStr (String c _) => Ok (VStr (String c ""))
  | VStr "" => Raise IndexError
  | VDict _ => Raise (KeyError "0")
  | _ => Raise TypeError
  end.

(** [key in v] for a string key: a key of a dict, an element of a list,
    a substring of a string. *)
Definition contains (key : string) (v : value) : result bool :=
  match v with
  | VDict fields =>
      Ok (match lookup key fields with Some _ => true | None => false end)
  | VList items => Ok (existsb (is_str key) items)
  | VStr s => Ok (negb (PyStr.find s key =? -1))
  | _ => Raise TypeError
  end.

(** [v == s] for a string literal [s]. *)
Definition eq_str (v : value) (s : string) : bool := is_str s v.

(** pydantic's coercion of a value into a [str] field: strings pass,
    numbers (and booleans, which are integers) are printed, everything
    else is refused. *)
Definition str_validator (v : value) : option string :=
  match v with
  | VStr s => Some s
  | VInt n => Some (PyStr.of_Z n)
  | VBool true => Some "True"
  | VBool false => Some "False"
  | _ => None
  end.

(** pydantic's coercion of a string into an [int] field: [int(v)]. *)
Definition int_validator (s : string) : option Z := PyStr.int s.

(** pydantic's check of a [List[str]] field: a list whose items all
    pass [str_validator]; a string is not taken for a list. *)
Fixpoint all_str (items : list value) : option (list string) :=
  match items with
  | [] => Some []
  | v :: rest =>
      match str_validator v, all_str rest with
      | Some s, Some l => Some (s :: l)
      | _, _ => None
      end
  end.

Definition list_str_validator (v : value) : option (list string) :=
  match v with
  | VList items => all_str items
  | _ => None
  end.

End Py.

Import Py.

(** ** jobs.py: the job client *)

Module Jobs.

Record BuildParams := { bp_job_name : string; bp_build_number : string }.

Record BuildConsoleLogsRequest :=
  { clr_job_name : string; clr_build_number : Z }.

Record BuildConsoleLogsResponse := { console_logs : string }.

Record TriggerJobRequest :=
  { tj_job_name : string; parameters : option string }.

Record TriggerJobResponse :=
  { success : bool; tj_message : string; build_number : option string }.

Record JobStatusRequest :=
  { js_job_name : string; js_build_number : option string }.

Record JobStatusResponse :=
  { status : string; message : string; build_logs : option string }.

Record ArtifactRequest :=
  { ar_job_name : string; ar_build_number : Z; artifact_path : string }.

(** What [requests] hands back for a full response: the status code, the
    [Location] header if any, and what [.json()] gives. *)
Record response :=
  { status_code : Z; Location : option string; json : result value }.

(** The outgoing calls, in the order they are made. *)
Inductive event : Type :=
| Post (endpoint : string)
| GetFull (url : string)
| Get (endpoint : string)
| Sleep (seconds : Z).

(** The collaborators that live outside these files.  The three HTTP
    wrappers of [http_wrapper] answer from the history of calls made so
    far, each answer with the time it took (in clock ticks);
    [str_exn] is [str(e)] and [str_status] is [str()] of a
    [JobStatusResponse], as the libraries render them. *)
Record Runtime :=
  { post_full_reply : list event -> string -> Z * result response;
    get_full_reply : list event -> string -> Z * result response;
    get_reply : list event -> string -> Z * result value;
    str_exn : exn -> string;
    str_status : JobStatusResponse -> string }.

(** The state threaded through an action: the calls made so far and
    the wall clock ([time.time()]) in ticks. *)
Record World := { trace : list event; now : Z }.

Definition ticks_per_second : Z := 1000.

(** A computation reads the collaborators, updates the world and either
    returns or raises. *)
Definition M (A : Type) : Type := Runtime -> World -> result A * World.

Definition ret {A} (a : A) : M A := fun _ w => (Ok a, w).

Definition raise {A} (e : exn) : M A := fun _ w => (Raise e, w).

Definition bind {A B} (m : M A) (k : A -> M B) : M B :=
  fun rt w =>
    match m rt w with
    | (Ok a, w') => k a rt w'
    | (Raise e, w') => (Raise e, w')
    end.

(** [try: m except Exception as e: handler e] *)
Definition try_except {A} (m : M A) (handler : exn -> M A) : M A :=
  fun rt w =>
    match m rt w with
    | (Ok a, w') => (Ok a, w')
    | (Raise e, w') => handler e rt w'
    end.

Definition lift {A} (r : result A) : M A := fun _ w => (r, w).

(** A pydantic field check: [None] is a [ValidationError]. *)
Definition validated {A} (model field : string) (o : option A) : M A :=
  match o with
  | Some a => ret a
  | None => raise (ValidationError model field)
  end.

Declare Scope py_scope.
Delimit Scope py_scope with py.
Notation "x <- m ;; k" := (bind m (fun x => k))
  (at level 61, m at next level, right associativity) : py_scope.
Notation "m ;; k" := (bind m (fun _ => k))
  (at level 61, right associativity) : py_scope.
Open Scope py_scope.

(** A stage of an action: [try: a = body except Exception as e: return
    handler e].  [inl a] goes on with [a], [inr r] returns [r]. *)
Definition stage {A R} (body : M A) (handler : exn -> M R) : M (A + R) :=
  try_except (a <- body ;; ret (inl a))
             (fun e => r <- handler e ;; ret (inr r)).

Definition or_return {A R} (s : M (A + R)) (k : A -> M R) : M R :=
  x <- s ;;
  match x with
  | inl a => k a
  | inr r => ret r
  end.

Notation "x <-- s 'or' 'return' ;; k" := (or_return s (fun x => k))
  (at level 61, s at next level, right associativity) : py_scope.

Definition after (w : World) (e : event) (ticks : Z) : World :=
  {| trace := trace w ++ [e]; now := now w + ticks |}.

Definition post_wrapper_full_response (endpoint : string) : M response :=
  fun rt w =>
    let '(d, r) := post_full_reply rt (trace w) endpoint in
    (r, after w (Post endpoint) d).

Definition get_wrapper_full_response (url : string) : M response :=
  fun rt w =>
    let '(d, r) := get_full_reply rt (trace w) url in
    (r, after w (GetFull url) d).

Definition get_wrapper (endpoint : string) : M value :=
  fun rt w =>
    let '(d, r) := get_reply rt (trace w) endpoint in
    (r, after w (Get endpoint) d).

(** [time.sleep(seconds)]; [time.time()] is the field [now]. *)
Definition time_sleep (seconds : Z) : M unit :=
  fun _ w => (Ok tt, after w (Sleep seconds) (seconds * ticks_per_second)).

(** [str(e)] *)
Definition str_of_exn (e : exn) : M string :=
  fun rt w => (Ok (str_exn rt e), w).

(** [str(r)] for a [JobStatusResponse] *)
Definition str_of_status (r : JobStatusResponse) : M string :=
  fun rt w => (Ok (str_status rt r), w).

(** The constructors of the pydantic models whose arguments can fail
    validation. *)
Definition new_TriggerJobResponse (success : bool) (message : string)
           (build_number : value) : M TriggerJobResponse :=
  if is_None build_number
  then ret {| success := success; tj_message := message; build_number := None |}
  else
    s <- validated "TriggerJobResponse" "build_number" (str_validator build_number) ;;
    ret {| success := success; tj_message := message; build_number := Some s |}.

Definition new_JobStatusResponse (status : value) (message : string)
           (build_logs : option string) : M JobStatusResponse :=
  s <- validated "JobStatusResponse" "status" (str_validator status) ;;
  ret {| status := s; message := message; build_logs := build_logs |}.

Definition new_BuildParams (job_name : string) (build_number : option string)
  : M BuildParams :=
  s <- validated "BuildParams" "build_number" build_number ;;
  ret {| bp_job_name := job_name; bp_build_number := s |}.

Definition new_BuildConsoleLogsRequest (job_name build_number : string)
  : M BuildConsoleLogsRequest :=
  n <- validated "BuildConsoleLogsRequest" "build_number" (int_validator build_number) ;;
  ret {| clr_job_name := job_name; clr_build_number := n |}.

Definition new_BuildConsoleLogsResponse (console_logs : value)
  : M BuildConsoleLogsResponse :=
  s <- validated "BuildConsoleLogsResponse" "console_logs" (str_validator console_logs) ;;
  ret {| console_logs := s |}.

Definition new_ArtifactRequest (job_name : string) (build_number : option string)
           (artifact_path : string) : M ArtifactRequest :=
  s <- validated "ArtifactRequest" "build_number" build_number ;;
  n <- validated "ArtifactRequest" "build_number" (int_validator s) ;;
  ret {| ar_job_name := job_name; ar_build_number := n;
         artifact_path := artifact_path |}.

(** [status in ["SUCCESS", "FAILURE"]] *)
Definition terminal (status : value) : bool :=
  eq_str status "SUCCESS" || eq_str status "FAILURE".

(** The address that [get_job_status] queries: the given build when
    [request.build_number] is a non-empty string, the last build
    otherwise. *)
Definition status_endpoint (request : JobStatusRequest) : string :=
  match js_build_number request with
  | Some (String c b) =>
      "/job/" ++ js_job_name request ++ "/" ++ String c b ++ "/api/json?tree=result"
  | _ => "/job/" ++ js_job_name request ++ "/lastBuild/api/json?tree=result"
  end.

Definition get_job_status (request : JobStatusRequest) : M JobStatusResponse :=
  let endpoint := status_endpoint request in
  try_except
    (response <- get_wrapper endpoint ;;
     status <- lift (subscript response "result") ;;
     let message :=
       match status with
       | VStr s => if terminal status then "Job status: " ++ s
                   else "Job is in progress."
       | _ => "Job is in progress."
       end in
     new_JobStatusResponse status message None)
    (fun e =>
       text <- str_of_exn e ;;
       new_JobStatusResponse (VStr "") text None).

Definition get_build_console_logs (request : BuildConsoleLogsRequest)
  : M BuildConsoleLogsResponse :=
  let console_logs_endpoint :=
    "/job/" ++ clr_job_name request ++ "/"
      ++ PyStr.of_Z (clr_build_number request) ++ "/consoleText" in
  console_logs <- get_wrapper console_logs_endpoint ;;
  new_BuildConsoleLogsResponse console_logs.

Definition max_retries : Z := 10.
Definition retry_delay : Z := 5.
Definition timeout : Z := 300.

Definition timeout_message : string :=
  "Timeout reached while waiting for job completion.".
Definition retries_message : string :=
  "Exceeded maximum number of retries while waiting for job completion.".

(** The [while True] loop of [wait_for_job_completion]; [None] when
    [fuel] iterations were not enough to leave it. *)
Fixpoint wait_loop (fuel : nat) (params : BuildParams) (start_time retries : Z)
         (rt : Runtime) (w : World) : option (result JobStatusResponse * World) :=
  match fuel with
  | O => None
  | S fuel' =>
      let elapsed_time := now w - start_time in
      if elapsed_time >? timeout * ticks_per_second
      then Some (new_JobStatusResponse (VStr "") timeout_message None rt w)
      else if retries >=? max_retries
      then Some (new_JobStatusResponse (VStr "") retries_message None rt w)
      else
        match get_job_status
                {| js_job_name := bp_job_name params;
                   js_build_number := Some (bp_build_number params) |} rt w with
        | (Raise e, w1) => Some (Raise e, w1)
        | (Ok job_status, w1) =>
            if terminal (VStr (status job_status))
            then Some
                   ((request <- new_BuildConsoleLogsRequest
                                  (bp_job_name params) (bp_build_number params) ;;
                     build_logs <- get_build_console_logs request ;;
                     new_JobStatusResponse (VStr (status job_status))
                       (message job_status)
                       (Some (console_logs build_logs))) rt w1)
            else
              wait_loop fuel' params start_time (retries + 1) rt
                        (snd (time_sleep retry_delay rt w1))
        end
  end.

Definition wait_for_job_completion_fuel (fuel : nat) (params : BuildParams)
           (rt : Runtime) (w : World) : option (result JobStatusResponse * World) :=
  let start_time := now w in
  let retries := 0 in
  wait_loop fuel params start_time retries rt w.

(** The loop is left after at most [max_retries] polls, so
    [max_retries + 1] iterations always suffice (lemma [wait_loop_fuel]
    below); the default is never taken. *)
Definition wait_for_job_completion (params : BuildParams) : M JobStatusResponse :=
  fun rt w =>
    match wait_for_job_completion_fuel 11 params rt w with
    | Some r => r
    | None => (Raise (RemoteError "unreachable"), w)
    end.

(** The [for _ in range(n)] loop of [get_build_number_from_queue]. *)
Fixpoint queue_loop (n : nat) (queue_location : string) : M value :=
  match n with
  | O => ret VNone
  | S n' =>
      queue_response <- get_wrapper_full_response queue_location ;;
      if status_code queue_response =? 200
      then
        queue_data <- lift (json queue_response) ;;
        found <- lift (contains "executable" queue_data) ;;
        if (found : bool)
        then
          executable <- lift (subscript queue_data "executable") ;;
          lift (subscript executable "number")
        else time_sleep 2 ;; queue_loop n' queue_location
      else if status_code queue_response =? 404
      then ret VNone
      else time_sleep 2 ;; queue_loop n' queue_location
  end.

Definition get_build_number_from_queue (queue_location job_name : string)
  : M value :=
  queue_loop 10 queue_location.

Definition get_latest_build_number (job_name : string) : M value :=
  job_response <- get_wrapper_full_response ("/job/" ++ job_name ++ "/api/json") ;;
  job_data <- lift (json job_response) ;;
  found <- lift (contains "builds" job_data) ;;
  if (found : bool)
  then
    builds <- lift (subscript job_data "builds") ;;
    if truthy builds
    then
      first <- lift (subscript0 builds) ;;
      lift (subscript first "number")
    else ret VNone
  else ret VNone.

(** The [while build_number is None and retry_count > 0] loop of
    [trigger_job]. *)
Fixpoint latest_build_loop (retry_count : nat) (job_name : string)
         (build_number : value) : M value :=
  match retry_count with
  | O => ret build_number
  | S retry_count' =>
      if is_None build_number
      then
        time_sleep 10 ;;
        build_number' <- get_latest_build_number job_name ;;
        latest_build_loop retry_count' job_name build_number'
      else ret build_number
  end.

Definition no_build_number_message : string :=
  "Failed to retrieve build number after retries.".

(** The address that [trigger_job] posts to: with the parameters when
    [request.parameters] is a non-empty string, the plain build
    otherwise. *)
Definition trigger_endpoint (request : TriggerJobRequest) : string :=
  match parameters request with
  | Some (String c p) =>
      "/job/" ++ tj_job_name request ++ "/buildWithParameters" ++ String c p
  | _ => "/job/" ++ tj_job_name request ++ "/build"
  end.

Definition trigger_job (request : TriggerJobRequest) : M TriggerJobResponse :=
  let endpoint := trigger_endpoint request in
  try_except
    (response <- post_wrapper_full_response endpoint ;;
     if negb (status_code response =? 201)
     then new_TriggerJobResponse false
            ("Unexpected response status code: "
               ++ PyStr.of_Z (status_code response)) VNone
     else
       match Location response with
       | None =>
           new_TriggerJobResponse false
             "Queue location not found in response headers." VNone
       | Some queue_location =>
           build_number <- get_build_number_from_queue queue_location
                             (tj_job_name request) ;;
           build_number <- latest_build_loop 5 (tj_job_name request) build_number ;;
           if negb (is_None build_number)
           then new_TriggerJobResponse true "Job triggered successfully." build_number
           else new_TriggerJobResponse false no_build_number_message VNone
       end)
    (fun e =>
       text <- str_of_exn e ;;
       new_TriggerJobResponse false text VNone).

Definition get_artifact (request : ArtifactRequest) : M value :=
  let artifact_endpoint :=
    "/job/" ++ ar_job_name request ++ "/"
      ++ PyStr.of_Z (ar_build_number request) ++ "/artifact/"
      ++ artifact_path request in
  get_wrapper artifact_endpoint.

End Jobs.

(** ** consumer_groups.py *)

Module ConsumerGroups.
Import Jobs.

Record ListKafkaConsumerGroupsRequest := { consumer_group_name : string }.

Record ListKafkaConsumerGroupsResponse :=
  { consumer_groups : list string; success : bool }.

Record TopicLag := { topic : string; lag : Z }.

Definition new_ListKafkaConsumerGroupsResponse (consumer_groups : value)
           (success : bool) : M ListKafkaConsumerGroupsResponse :=
  l <- validated "ListKafkaConsumerGroupsResponse" "consumer_groups"
         (list_str_validator consumer_groups) ;;
  ret {| consumer_groups := l; success := success |}.

Definition split_kafka_output (output : string) : list string :=
  PyStr.split (PyStr.CR ++ PyStr.LF) output.

(** [output.split(...)] needs a string. *)
Definition as_str (v : value) : M string :=
  match v with
  | VStr s => ret s
  | _ => raise AttributeError
  end.

Definition list_kafka_consumer_groups (request : ListKafkaConsumerGroupsRequest)
  : M ListKafkaConsumerGroupsResponse :=
  try_except
    (consumer_group_job <--
       stage
         (trigger_job
            {| tj_job_name := "kafka_list_consumer_groups";
               parameters := Some ("?regex=" ++ consumer_group_name request) |})
         (fun e =>
            text <- str_of_exn e ;;
            new_ListKafkaConsumerGroupsResponse
              (VStr ("Error triggering describe job: " ++ text)) false)
       or return ;;
     wait_for_job_completion_response <--
       stage
         (wait_for_job_completion_request <-
            new_BuildParams "kafka_list_consumer_groups"
              (build_number consumer_group_job) ;;
          wait_for_job_completion wait_for_job_completion_request)
         (* a bare [except:] whose message reads [e], which no
            enclosing clause has bound *)
         (fun _ => raise (UnboundLocalError "e"))
       or return ;;
     if negb (status wait_for_job_completion_response =? "SUCCESS")%string
     then
       text <- str_of_status wait_for_job_completion_response ;;
       new_ListKafkaConsumerGroupsResponse
         (VStr ("Jenkins job failed: " ++ text)) false
     else
       get_artifact_response <--
         stage
           (get_artifact_request <-
              new_ArtifactRequest "kafka_list_consumer_groups"
                (build_number consumer_group_job) "output.txt" ;;
            get_artifact get_artifact_request)
           (fun e =>
              text <- str_of_exn e ;;
              new_ListKafkaConsumerGroupsResponse
                (VStr ("Error getting describe artifact: " ++ text)) false)
         or return ;;
       if truthy get_artifact_response
       then
         output <- as_str get_artifact_response ;;
         new_ListKafkaConsumerGroupsResponse
           (VList (map VStr (split_kafka_output output))) true
       else
         new_ListKafkaConsumerGroupsResponse
           (VStr "No artifact response found.") false)
    (fun e =>
       new_ListKafkaConsumerGroupsResponse
         (VStr "Error with entire try section") false).

Definition clean_up_response (response : string) : string :=
  let group_index := PyStr.find response "GROUP" in
  if negb (group_index =? -1)
  then PyStr.slice_from response group_index
  else response.

(** The body of the loop of [extract_lag_values] on one line: [None]
    when the line has fewer than 7 columns and nothing is appended,
    otherwise the entry to append, or the [ValueError] of [int]. *)
Definition lag_row (line : string) : option (result TopicLag) :=
  let columns := PyStr.split_ws (PyStr.strip line) in
  if (7 <=? List.length columns)%nat
  then
    let topic := nth 1 columns "" in
    match PyStr.int (nth 5 columns "") with
    | Some lag => Some (Ok {| topic := topic; lag := lag |})
    | None => Some (Raise ValueError)
    end
  else None.

(** The [for line in lines[1:]] loop over the list [lag_values] it
    appends to; an exception leaves the loop with what was appended
    before it. *)
Fixpoint lag_loop (lines : list string) (lag_values : list TopicLag)
  : result unit * list TopicLag :=
  match lines with
  | [] => (Ok tt, lag_values)
  | line :: rest =>
      match lag_row line with
      | None => lag_loop rest lag_values
      | Some (Ok entry) => lag_loop rest (lag_values ++ [entry])
      | Some (Raise e) => (Raise e, lag_values)
      end
  end.

(** [lines[1:]] of the stripped text split at carriage returns. *)
Definition lag_lines (cleaned_response : string) : list string :=
  tl (PyStr.split PyStr.CR (PyStr.strip cleaned_response)).

Definition extract_lag_values (cleaned_response : string) : list TopicLag :=
  match lag_loop (lag_lines cleaned_response) [] with
  | (Ok _, lag_values) => lag_values
  | (Raise e, lag_values) => (* logged *) lag_values
  end.

(** The lag parser of the specification: the cleaning step followed by
    the extraction, as [get_lag_of_kafka_consumer_group] chains them. *)
Definition extractLagTable (text : string) : list TopicLag :=
  extract_lag_values (clean_up_response text).

Record DescribeKafkaConsumerGroupRequest := { dcg_consumer_group_name : string }.

Record DescribeKafkaConsumerGroupResponse :=
  { dcg_artifact : string; dcg_success : bool }.

Definition new_DescribeKafkaConsumerGroupResponse (artifact : value) (success : bool)
  : M DescribeKafkaConsumerGroupResponse :=
  s <- validated "DescribeKafkaConsumerGroupResponse" "artifact"
         (str_validator artifact) ;;
  ret {| dcg_artifact := s; dcg_success := success |}.

Definition describe_kafka_consumer_group (request : DescribeKafkaConsumerGroupRequest)
  : M DescribeKafkaConsumerGroupResponse :=
  try_except
    (describe_consumer_group_job <--
       stage
         (trigger_job
            {| tj_job_name := "kafka_describe_consumer_group";
               parameters := Some ("?group_name=" ++ dcg_consumer_group_name request) |})
         (fun e =>
            text <- str_of_exn e ;;
            new_DescribeKafkaConsumerGroupResponse
              (VStr ("Error triggering describe job: " ++ text)) false)
       or return ;;
     wait_for_describe_job_completion_response <--
       stage
         (wait_for_describe_job_completion_request <-
            new_BuildParams "kafka_describe_consumer_group"
              (build_number describe_consumer_group_job) ;;
          wait_for_job_completion wait_for_describe_job_completion_request)
         (* a bare [except:] whose message reads [e], which no
            enclosing clause has bound *)
         (fun _ => raise (UnboundLocalError "e"))
       or return ;;
     if negb (status wait_for_describe_job_completion_response =? "SUCCESS")%string
     then
       text <- str_of_status wait_for_describe_job_completion_response ;;
       new_DescribeKafkaConsumerGroupResponse
         (VStr ("Jenkins job failed: " ++ text)) false
     else
       get_describe_artifact_response <--
         stage
           (get_describe_artifact_request <-
              new_ArtifactRequest "kafka_describe_consumer_group"
                (build_number describe_consumer_group_job) "output.txt" ;;
            get_artifact get_describe_artifact_request)
           (fun e =>
              text <- str_of_exn e ;;
              new_DescribeKafkaConsumerGroupResponse
                (VStr ("Error getting describe artifact: " ++ text)) false)
         or return ;;
       if truthy get_describe_artifact_response
       then new_DescribeKafkaConsumerGroupResponse get_describe_artifact_response true
       else new_DescribeKafkaConsumerGroupResponse
              (VStr "No artifact response found.") false)
    (fun e =>
       text <- str_of_exn e ;;
       new_DescribeKafkaConsumerGroupResponse
         (VStr ("Error with entire try section: " ++ text)) false).

Record GetLagOfKafkaConsumerGroupRequest := { gl_consumer_group_name : string }.

Record GetLagOfKafkaConsumerGroupResponse :=
  { gl_lag : list TopicLag; gl_success : string }.

(** The action passes this model a list of [{"topic": str, "lag": int}]
    dictionaries (or the empty list) and a string: both fields always
    validate. *)
Definition new_GetLagOfKafkaConsumerGroupResponse (lag : list TopicLag)
           (success : string) : M GetLagOfKafkaConsumerGroupResponse :=
  ret {| gl_lag := lag; gl_success := success |}.

Definition get_lag_of_kafka_consumer_group (request : GetLagOfKafkaConsumerGroupRequest)
  : M GetLagOfKafkaConsumerGroupResponse :=
  try_except
    (get_lag_consumer_group_job <--
       stage
         (trigger_job
            {| tj_job_name := "kafka_describe_consumer_group";
               parameters := Some ("?group_name=" ++ gl_consumer_group_name request) |})
         (fun e =>
            text <- str_of_exn e ;;
            new_GetLagOfKafkaConsumerGroupResponse []
              ("False: Error triggering get lag job: " ++ text))
       or return ;;
     wait_for_get_lag_job_completion_response <--
       stage
         (wait_for_get_lag_job_completion_request <-
            new_BuildParams "kafka_describe_consumer_group"
              (build_number get_lag_consumer_group_job) ;;
          wait_for_job_completion wait_for_get_lag_job_completion_request)
         (fun e =>
            text <- str_of_exn e ;;
            new_GetLagOfKafkaConsumerGroupResponse []
              ("False: Error waiting for get lag job completion: " ++ text))
       or return ;;
     if negb (status wait_for_get_lag_job_completion_response =? "SUCCESS")%string
     then
       text <- str_of_status wait_for_get_lag_job_completion_response ;;
       new_GetLagOfKafkaConsumerGroupResponse []
         ("False: Jenkins job failed: " ++ text)
     else
       get_lag_artifact_response <--
         stage
           (get_lag_artifact_request <-
              new_ArtifactRequest "kafka_describe_consumer_group"
                (build_number get_lag_consumer_group_job) "output.txt" ;;
            get_artifact get_lag_artifact_request)
           (fun e =>
              text <- str_of_exn e ;;
              new_GetLagOfKafkaConsumerGroupResponse []
                ("False: Error getting lag artifact: " ++ text))
         or return ;;
       if truthy get_lag_artifact_response
       then
         (* [clean_up_response] calls [response.find], which needs a string *)
         response <- as_str get_lag_artifact_response ;;
         let cleaned_response := clean_up_response response in
         let lag_values := extract_lag_values cleaned_response in
         new_GetLagOfKafkaConsumerGroupResponse lag_values
           ("True: Successfully retrieved lag of consumer group "
              ++ gl_consumer_group_name request)
       else
         new_GetLagOfKafkaConsumerGroupResponse [] "False: No artifact response found.")
    (fun e =>
       text <- str_of_exn e ;;
       new_GetLagOfKafkaConsumerGroupResponse []
         ("False: Error with entire try section: " ++ text)).

End ConsumerGroups.

(** ** topics.py *)

Module Topics.
Import Jobs.

Record DescribeKafkaTopicRequest := { topic_name : string }.

Record DescribeKafkaTopicResponse := { artifact : string; success : bool }.

Record ListKafkaTopicsRequest := { lt_topic_name : string }.

Record ListKafkaTopicsResponse := { topics : string; lt_success : bool }.

Definition new_DescribeKafkaTopicResponse (artifact : value) (success : bool)
  : M DescribeKafkaTopicResponse :=
  s <- validated "DescribeKafkaTopicResponse" "artifact" (str_validator artifact) ;;
  ret {| artifact := s; success := success |}.

Definition new_ListKafkaTopicsResponse (topics : value) (success : bool)
  : M ListKafkaTopicsResponse :=
  s <- validated "ListKafkaTopicsResponse" "topics" (str_validator topics) ;;
  ret {| topics := s; lt_success := success |}.

Definition describe_kafka_topic (request : DescribeKafkaTopicRequest)
  : M DescribeKafkaTopicResponse :=
  try_except
    (describe_topic_job <--
       stage
         (trigger_job
            {| tj_job_name := "kafka_describe_topic";
               parameters := Some ("?topic_name=" ++ topic_name request) |})
         (fun e =>
            text <- str_of_exn e ;;
            new_DescribeKafkaTopicResponse
              (VStr ("Error triggering describe job: " ++ text)) false)
       or return ;;
     wait_for_describe_job_completion_response <--
       stage
         (wait_for_describe_job_completion_request <-
            new_BuildParams "kafka_describe_topic"
              (build_number describe_topic_job) ;;
          wait_for_job_completion wait_for_describe_job_completion_request)
         (fun e =>
            text <- str_of_exn e ;;
            new_DescribeKafkaTopicResponse
              (VStr ("Error waiting for describe job completion: " ++ text)) false)
       or return ;;
     if negb (status wait_for_describe_job_completion_response =? "SUCCESS")%string
     then
       text <- str_of_status wait_for_describe_job_completion_response ;;
       new_DescribeKafkaTopicResponse
         (VStr ("Jenkins job failed: Possibly no match for your topic. " ++ text))
         false
     else
       get_describe_artifact_response <--
         stage
           (get_describe_artifact_request <-
              new_ArtifactRequest "kafka_describe_topic"
                (build_number describe_topic_job) "output.txt" ;;
            get_artifact get_describe_artifact_request)
           (fun e =>
              text <- str_of_exn e ;;
              new_DescribeKafkaTopicResponse
                (VStr ("Error getting describe artifact: " ++ text)) false)
         or return ;;
       if truthy get_describe_artifact_response
       then new_DescribeKafkaTopicResponse get_describe_artifact_response true
       else new_DescribeKafkaTopicResponse (VStr "No artifact response found.") false)
    (fun e =>
       text <- str_of_exn e ;;
       new_DescribeKafkaTopicResponse
         (VStr ("Error with entire try section: " ++ text)) false).

Definition list_kafka_topics (request : ListKafkaTopicsRequest)
  : M ListKafkaTopicsResponse :=
  try_except
    (topic_job <--
       stage
         (trigger_job
            {| tj_job_name := "kafka_list_topics";
               parameters := Some ("?regex=" ++ lt_topic_name request) |})
         (fun e =>
            text <- str_of_exn e ;;
            new_ListKafkaTopicsResponse (VStr ("Error triggering job: " ++ text)) false)
       or return ;;
     wait_for_job_completion_response <--
       stage
         (wait_for_job_completion_request <-
            new_BuildParams "kafka_list_topics" (build_number topic_job) ;;
          wait_for_job_completion wait_for_job_completion_request)
         (fun e =>
            text <- str_of_exn e ;;
            new_ListKafkaTopicsResponse
              (VStr ("Error waiting for job completion: " ++ text)) false)
       or return ;;
     if negb (status wait_for_job_completion_response =? "SUCCESS")%string
     then
       new_ListKafkaTopicsResponse
         (VStr "Jenkins job failed. No matching topics found") false
     else
       get_artifact_response <--
         stage
           (get_artifact_request <-
              new_ArtifactRequest "kafka_list_topics" (build_number topic_job)
                "output.txt" ;;
            get_artifact get_artifact_request)
           (fun e =>
              text <- str_of_exn e ;;
              new_ListKafkaTopicsResponse
                (VStr ("Error getting describe artifact: " ++ text)) false)
         or return ;;
       if truthy get_artifact_response
       then new_ListKafkaTopicsResponse get_artifact_response true
       else new_ListKafkaTopicsResponse (VStr "No artifact response found.") false)
    (fun e =>
       text <- str_of_exn e ;;
       new_ListKafkaTopicsResponse
         (VStr ("Error with entire try section: " ++ text)) false).

Definition number_of_partitions_in_kafka_topic (request : DescribeKafkaTopicRequest)
  : M DescribeKafkaTopicResponse :=
  let request := {| topic_name := topic_name request |} in
  describe_kafka_topic request.

Definition replication_factor_of_kafka_topic (request : DescribeKafkaTopicRequest)
  : M DescribeKafkaTopicResponse :=
  let request := {| topic_name := topic_name request |} in
  describe_kafka_topic request.

Definition leader_and_replicas_for_kafka_topic (request : DescribeKafkaTopicRequest)
  : M DescribeKafkaTopicResponse :=
  let request := {| topic_name := topic_name request |} in
  describe_kafka_topic request.

End Topics.

(** ** cloud_health/actions/specific.py *)

Module CloudHealth.

(** [re.match] of a pattern [^(a1|...|an)$] against [v], which is how
    pydantic checks a [constr(regex=...)] field: [$] matches at the end
    of the string and also just before a line feed that ends it. *)
Definition regex_match_alternatives (alternatives : list string) (v : string)
  : bool :=
  existsb (fun a => (v =? a)%string || (v =? a ++ PyStr.LF)%string) alternatives.

Record ProductionCloudHealthRequest := { cloud_location : string }.
Record ProductionCloudHealthResponse := { cloud_link : string }.

Record DevelopmentCloudHealthRequest := { dev_cloud_location : string }.
Record DevelopmentCloudHealthResponse := { dev_cloud_link : string }.

Definition production_locations : list string := ["gamma"; "kappa"].

Definition development_locations : list string :=
  ["dogfood"; "opensync"; "osync"; "thetadev"; "ci"; "func4"].

(** Construction of the request models; [Raise] is the validation
    failure. *)
Definition new_ProductionCloudHealthRequest (cloud_location : string)
  : result ProductionCloudHealthRequest :=
  if regex_match_alternatives production_locations cloud_location
  then Ok {| cloud_location := cloud_location |}
  else Raise (ValidationError "ProductionCloudHealthRequest" "cloud_location").

Definition new_DevelopmentCloudHealthRequest (cloud_location : string)
  : result DevelopmentCloudHealthRequest :=
  if regex_match_alternatives development_locations cloud_location
  then Ok {| dev_cloud_location := cloud_location |}
  else Raise (ValidationError "DevelopmentCloudHealthRequest" "cloud_location").

(** The actions; [None] is the [None] that Python returns when no
    branch is taken. *)
Definition production_cloud_health (request : ProductionCloudHealthRequest)
  : option ProductionCloudHealthResponse :=
  if (cloud_location request =? "gamma")%string
  then Some {| cloud_link := "https://grafana.sso.plumenet.io/d/gamma-mocha-and-pytests/mocha-and-pytests" |}
  else if (cloud_location request =? "kappa")%string
  then Some {| cloud_link := "https://grafana.sso.plumenet.io/d/kappa-mocha-and-pytests/mocha-and-pytests" |}
  else None.

Definition development_cloud_health (request : DevelopmentCloudHealthRequest)
  : option DevelopmentCloudHealthResponse :=
  if (dev_cloud_location request =? "dogfood")%string
  then Some {| dev_cloud_link := "https://grafana.sso.plume.tech/d/dogfood-mocha-and-pytests/mocha-and-pytests" |}
  else if (dev_cloud_location request =? "opensync")%string
  then Some {| dev_cloud_link := "https://grafana.sso.plume.tech/d/opensync-mocha-and-pytests/mocha-and-pytests" |}
  else if (dev_cloud_location request =? "osync")%string
  then Some {| dev_cloud_link := "https://grafana.sso.plume.tech/d/osync-mocha-and-pytests/mocha-and-pytests" |}
  else if (dev_cloud_location request =? "thetadev")%string
  then Some {| dev_cloud_link := "https://grafana.sso.plume.tech/d/thetadev-mocha-and-pytests/mocha-and-pytests" |}
  else if (dev_cloud_location request =? "ci")%string
  then Some {| dev_cloud_link := "https://grafana.sso.plume.tech/d/ci-mocha-and-pytests/mocha-and-pytests" |}
  else if (dev_cloud_location request =? "func4")%string
  then Some {| dev_cloud_link := "https://grafana.sso.plume.tech/d/func4-mocha-and-pytests/mocha-and-pytests" |}
  else None.

(** An invocation with a raw location: the framework builds the request
    model, then calls the action. *)
Definition invoke_production (cloud_location : string)
  : result (option ProductionCloudHealthResponse) :=
  match new_ProductionCloudHealthRequest cloud_location with
  | Ok request => Ok (production_cloud_health request)
  | Raise e => Raise e
  end.

Definition invoke_development (cloud_location : string)
  : result (option DevelopmentCloudHealthResponse) :=
  match new_DevelopmentCloudHealthRequest cloud_location with
  | Ok request => Ok (development_cloud_health request)
  | Raise e => Raise e
  end.

End CloudHealth.


(** ** Vocabulary of the properties *)

Module Props.
Import Jobs ConsumerGroups.

(** The entries that the lines contribute, each line taken alone. *)
Definition row_entries (lines : list string) : list TopicLag :=
  flat_map (fun line =>
              match lag_row line with
              | Some (Ok entry) => [entry]
              | _ => []
              end) lines.

(** A line on which the loop body raises: at least 7 columns, and a
    column 5 that [int] refuses. *)
Definition row_fails (line : string) : bool :=
  match lag_row line with
  | Some (Raise _) => true
  | _ => false
  end.

(** The remote job never reports [SUCCESS] or [FAILURE], whatever is
    asked and whenever. *)
Definition never_terminal (rt : Runtime) : Prop :=
  forall history endpoint response result,
    snd (get_reply rt history endpoint) = Ok response ->
    subscript response "result" = Ok result ->
    terminal result = false.

(** Every status call takes between 0 and [d] ticks. *)
Definition status_latency_within (rt : Runtime) (d : Z) : Prop :=
  forall history endpoint, 0 <= fst (get_reply rt history endpoint) <= d.

(** [k] rounds of the wait: a status call for the build of [params], then
    a sleep of [retry_delay] seconds. *)
Fixpoint poll_rounds (params : BuildParams) (k : nat) : list event :=
  match k with
  | O => []
  | S k' =>
      Get (status_endpoint {| js_job_name := bp_job_name params;
                              js_build_number := Some (bp_build_number params) |})
          :: Sleep retry_delay :: poll_rounds params k'
  end.

(** [k] rounds of the latest-build fallback: a 10 second sleep, then a
    query of the job's build list. *)
Fixpoint fallback_rounds (job_name : string) (k : nat) : list event :=
  match k with
  | O => []
  | S k' =>
      Sleep 10 :: GetFull ("/job/" ++ job_name ++ "/api/json")
            :: fallback_rounds job_name k'
  end.

(** The answer of the CI service to the query of the build list in round
    [i] (counted from 0) of the fallback, when [before] holds the calls
    made before the fallback: [i] full rounds and the sleep of round [i]
    have then been added. *)
Definition fallback_reply (rt : Runtime) (before : list event) (job_name : string)
           (i : nat) : Z * result response :=
  get_full_reply rt (before ++ fallback_rounds job_name i ++ [Sleep 10])%list
                 ("/job/" ++ job_name ++ "/api/json").

(** A reply that describes a job with no build: an object without the
    key [builds], or with an empty list of builds. *)
Definition no_builds (reply : Z * result response) : Prop :=
  exists d job_response fields,
    reply = (d, Ok job_response)
    /\ json job_response = Ok (VDict fields)
    /\ (lookup "builds" fields = None \/ lookup "builds" fields = Some (VList [])).

(** A reply whose list of builds begins with build [number]. *)
Definition names_build (reply : Z * result response) (number : Z) : Prop :=
  exists d job_response fields first rest,
    reply = (d, Ok job_response)
    /\ json job_response = Ok (VDict fields)
    /\ lookup "builds" fields = Some (VList (VDict first :: rest))
    /\ lookup "number" first = Some (VInt number).

(** What [trigger_job] answers once the fallback loop has ended with
    [outcome]. *)
Definition fallback_answer (rt : Runtime) (outcome : result value)
  : TriggerJobResponse :=
  match outcome with
  | Ok VNone =>
      {| Jobs.success := false; tj_message := no_build_number_message;
         build_number := None |}
  | Ok v =>
      match str_validator v with
      | Some s =>
          {| Jobs.success := true; tj_message := "Job triggered successfully.";
             build_number := Some s |}
      | None =>
          {| Jobs.success := false;
             tj_message :=
               str_exn rt (ValidationError "TriggerJobResponse" "build_number");
             build_number := None |}
      end
  | Raise e =>
      {| Jobs.success := false; tj_message := str_exn rt e; build_number := None |}
  end.

(** [k] rounds of the queue resolution: a poll of the queue item, then a
    sleep of 2 seconds. *)
Fixpoint queue_rounds (queue_location : string) (k : nat) : list event :=
  match k with
  | O => []
  | S k' => GetFull queue_location :: Sleep 2 :: queue_rounds queue_location k'
  end.

(** The queue item is always there and never names a build: every poll
    is answered, never with status 404, and an answer with status 200 is
    an object without the key [executable]. *)
Definition stays_queued (rt : Runtime) (queue_location : string) : Prop :=
  forall history,
  exists d queue_response,
    get_full_reply rt history queue_location = (d, Ok queue_response)
    /\ status_code queue_response <> 404
    /\ (status_code queue_response = 200 ->
        exists fields,
          json queue_response = Ok (VDict fields)
          /\ lookup "executable" fields = None).

(** The HTTP requests among the events. *)
Fixpoint requests (events : list event) : nat :=
  match events with
  | [] => O
  | Sleep _ :: rest => requests rest
  | _ :: rest => S (requests rest)
  end.

(** The seconds slept among the events. *)
Fixpoint slept (events : list event) : Z :=
  match events with
  | [] => 0
  | Sleep seconds :: rest => seconds + slept rest
  | _ :: rest => slept rest
  end.

(** Whatever the CI service does, [m] adds at most [n] requests and at
    most [s] seconds of sleep to the calls made before it. *)
Definition costs {A} (m : M A) (n : nat) (s : Z) : Prop :=
  forall rt w,
  exists events,
    trace (snd (m rt w)) = (trace w ++ events)%list
    /\ (requests events <= n)%nat
    /\ 0 <= slept events <= s.

End Props.

(** ** Concrete runs: texts and behaviours of the CI service *)

Module Scenarios.
Import Jobs ConsumerGroups PyStr.

(** The text of the specification's example for the lag parser. *)
Definition lag_example : string :=
  "noise" ++ LF ++ "GROUP TOPIC P CID H O LAG" ++ CR
          ++ "G1 topicA 0 c h 5 3" ++ CR ++ "...".

(** A table whose first row has no lag figure, as the Kafka tool prints
    it for a partition without a committed offset. *)
Definition lag_dash : string :=
  "GROUP TOPIC PARTITION CURRENT-OFFSET LOG-END-OFFSET LAG CONSUMER-ID" ++ CR
    ++ "g1 topicA 0 10 12 2 c1" ++ CR
    ++ "g1 topicB 0 - 12 - c1" ++ CR
    ++ "g1 topicC 1 10 17 7 c2".

Definition render_exn (e : exn) : string :=
  match e with
  | RemoteError what => what
  | ValidationError model field => "validation error for " ++ model ++ " " ++ field
  | KeyError key => "key " ++ key
  | IndexError => "index out of range"
  | TypeError => "type error"
  | ValueError => "value error"
  | AttributeError => "attribute error"
  | UnboundLocalError name => "unbound local " ++ name
  end.

Definition render_status (r : JobStatusResponse) : string :=
  "status=" ++ status r ++ " message=" ++ message r.

(** A service whose answers depend on the address only, each after
    [latency] ticks. *)
Definition service (post : string -> result response)
           (full : string -> result response)
           (plain : string -> result value) (latency : Z) : Runtime :=
  {| post_full_reply := fun _ endpoint => (latency, post endpoint);
     get_full_reply := fun _ url => (latency, full url);
     get_reply := fun _ endpoint => (latency, plain endpoint);
     str_exn := render_exn;
     str_status := render_status |}.

Definition start : World := {| trace := []; now := 0 |}.

Definition refused {A} : string -> result A :=
  fun _ => Raise (RemoteError "connection refused").

Definition no_body : result value := Raise (RemoteError "no JSON body").

(** Nothing answers. *)
Definition ci_down : Runtime := service refused refused refused 0.

(** The trigger is answered with a server error. *)
Definition ci_rejects : Runtime :=
  service (fun _ => Ok {| status_code := 500; Location := None; json := no_body |})
          refused refused 0.

(** The build was aborted. *)
Definition ci_aborted : Runtime :=
  service refused refused (fun _ => Ok (VDict [("result", VStr "ABORTED")])) 0.

(** The build is running for ever: its result stays [null]. *)
Definition ci_running : Runtime :=
  service refused refused (fun _ => Ok (VDict [("result", VNone)])) 200.

(** The same, with status calls that take 100 seconds each. *)
Definition ci_slow : Runtime :=
  service refused refused (fun _ => Ok (VDict [("result", VNone)])) 100000.

Definition queue_item : string := "https://ci.example/queue/item/7/".

Definition accepted : string -> result response :=
  fun _ => Ok {| status_code := 201; Location := Some queue_item; json := no_body |}.

(** The job has left the queue before the first poll; the build list
    names build 42. *)
Definition ci_left_queue : Runtime :=
  service accepted
    (fun url =>
       if (url =? queue_item)%string
       then Ok {| status_code := 404; Location := None; json := no_body |}
       else Ok {| status_code := 200; Location := None;
                  json := Ok (VDict [("builds",
                                      VList [VDict [("number", VInt 42)]])]) |})
    refused 0.

Definition mentions (s sub : string) : bool := negb (find s sub =? -1).

(** A job that is queued as build 12, succeeds and leaves [output] as
    its artifact. *)
Definition ci_succeeds (output : string) : Runtime :=
  service accepted
    (fun _ => Ok {| status_code := 200; Location := None;
                    json := Ok (VDict [("executable",
                                        VDict [("number", VInt 12)])]) |})
    (fun endpoint =>
       if mentions endpoint "tree=result" then Ok (VDict [("result", VStr "SUCCESS")])
       else if mentions endpoint "consoleText" then Ok (VStr "Finished: SUCCESS")
       else Ok (VStr output))
    0.

Definition two_names : string := "a" ++ CR ++ LF ++ "b".

(** The artifact of a describe job: a note of the tool, then the table. *)
Definition lag_artifact : string :=
  "Note: this will not show information about old consumers." ++ LF ++ lag_dash.

(** The trigger is accepted without a [Location] header. *)
Definition ci_no_location : Runtime :=
  service (fun _ => Ok {| status_code := 201; Location := None; json := no_body |})
          refused refused 0.

(** The build list of a job that has two builds. *)
Definition two_builds : value :=
  VDict [("name", VStr "kafka_list_topics");
         ("builds", VList [VDict [("number", VInt 42)]; VDict [("number", VInt 41)]])].

(** The job has left the queue and has no build yet. *)
Definition ci_no_build : Runtime :=
  service accepted
    (fun url =>
       if (url =? queue_item)%string
       then Ok {| status_code := 404; Location := None; json := no_body |}
       else Ok {| status_code := 200; Location := None;
                  json := Ok (VDict [("builds", VList [])]) |})
    refused 0.

(** A service that knows that job only by its build list. *)
Definition ci_builds : Runtime :=
  service refused
          (fun _ => Ok {| status_code := 200; Location := None; json := Ok two_builds |})
          refused 0.

(** The job waits in the queue for ever. *)
Definition ci_queued : Runtime :=
  service accepted
          (fun _ => Ok {| status_code := 200; Location := None;
                          json := Ok (VDict [("why", VStr "Waiting for next executor")]) |})
          refused 0.

(** A lag table whose lines end with line feeds only. *)
Definition lag_unix : string :=
  "GROUP TOPIC PARTITION CURRENT-OFFSET LOG-END-OFFSET LAG CONSUMER-ID" ++ LF
    ++ "g1 topicA 0 10 12 2 c1" ++ LF.

End Scenarios.

(** * Properties *)

Import Jobs ConsumerGroups Topics CloudHealth Props Scenarios.

(** ** The parsers *)

Lemma lag_loop_app (lines : list string) :
  forall lag_values,
    (forall line, In line lines -> row_fails line = false) ->
    lag_loop lines lag_values = (Ok tt, (lag_values ++ row_entries lines)%list).
Proof.
  induction lines as [|line rest IH]; intros acc Hok; simpl.
  - now rewrite app_nil_r.
  - assert (Hline : row_fails line = false) by (apply Hok; now left).
    unfold row_fails in Hline.
    destruct (lag_row line) as [[entry|e]|]; try discriminate.
    + rewrite IH by (intros; apply Hok; now right).
      now rewrite <- app_assoc.
    + apply IH. intros; apply Hok; now right.
Qed.

Lemma lag_loop_stops (pre : list string) (bad : string) (post : list string) :
  forall lag_values,
    (forall line, In line pre -> row_fails line = false) ->
    row_fails bad = true ->
    snd (lag_loop (pre ++ bad :: post)%list lag_values)
    = (lag_values ++ row_entries pre)%list.
Proof.
  induction pre as [|line pre IH]; intros acc Hok Hbad; simpl.
  - unfold row_fails in Hbad.
    destruct (lag_row bad) as [[entry|e]|]; try discriminate.
    simpl. now rewrite app_nil_r.
  - assert (Hline : row_fails line = false) by (apply Hok; now left).
    unfold row_fails in Hline.
    destruct (lag_row line) as [[entry|e]|]; try discriminate.
    + rewrite IH by (auto; intros; apply Hok; now right).
      now rewrite <- app_assoc.
    + apply IH; auto. intros; apply Hok; now right.
Qed.

Lemma extract_lag_values_snd (text : string) :
  extract_lag_values text = snd (lag_loop (lag_lines text) []).
Proof.
  unfold extract_lag_values.
  now destruct (lag_loop (lag_lines text) []) as [[u|e] l].
Qed.

(** C1, as the code has it: on the example text the preamble before
    [GROUP] and the header row are skipped and the row gives topic
    [topicA] (column 1) with lag 5, the figure in column 5 of the row; the
    closing [...] has fewer than 7 columns and gives nothing. *)
Theorem extractLagTable_example :
  clean_up_response lag_example
  = "GROUP TOPIC P CID H O LAG" ++ PyStr.CR ++ "G1 topicA 0 c h 5 3" ++ PyStr.CR ++ "..."
  /\ lag_lines (clean_up_response lag_example) = ["G1 topicA 0 c h 5 3"; "..."]
  /\ PyStr.split_ws "G1 topicA 0 c h 5 3" = ["G1"; "topicA"; "0"; "c"; "h"; "5"; "3"]
  /\ lag_row "..." = None
  /\ extractLagTable lag_example = [{| topic := "topicA"; lag := 5 |}].
Proof. repeat split; reflexivity. Qed.

(** C1, as stated: the result on the example text is not the entry with
    lag 3. *)
Lemma extractLagTable_example_not_3 :
  extractLagTable lag_example <> [{| topic := "topicA"; lag := 3 |}].
Proof. vm_compute. discriminate. Qed.

(** C2, as the code has it: the extraction always returns a list, made of
    the entries of the lines before the first line that fails to parse;
    that line ends the extraction.  With no failing line ([rest] empty)
    every line contributes. *)
Theorem extract_lag_values_until_failure (text : string) (pre rest : list string) :
  lag_lines text = (pre ++ rest)%list ->
  (forall line, In line pre -> row_fails line = false) ->
  match rest with [] => True | bad :: _ => row_fails bad = true end ->
  extract_lag_values text = row_entries pre.
Proof.
  intros Hlines Hpre Hrest.
  rewrite extract_lag_values_snd, Hlines.
  destruct rest as [|bad post].
  - rewrite app_nil_r, lag_loop_app by assumption. reflexivity.
  - now rewrite lag_loop_stops.
Qed.

Lemma extract_lag_values_until_failure_witness :
  lag_lines lag_dash
  = (["g1 topicA 0 10 12 2 c1"]
       ++ ["g1 topicB 0 - 12 - c1"; "g1 topicC 1 10 17 7 c2"])%list
  /\ extract_lag_values lag_dash = row_entries ["g1 topicA 0 10 12 2 c1"].
Proof.
  split; [reflexivity|].
  apply (extract_lag_values_until_failure lag_dash
           ["g1 topicA 0 10 12 2 c1"]
           ["g1 topicB 0 - 12 - c1"; "g1 topicC 1 10 17 7 c2"]).
  - reflexivity.
  - intros line [<-|[]]. reflexivity.
  - reflexivity.
Defined.

(** C2, as stated: in this table the third row is well formed and comes
    after a row that fails, yet its entry is not in the result, which
    holds the first row only. *)
Lemma extract_lag_values_drops_later_row :
  lag_lines lag_dash
  = ["g1 topicA 0 10 12 2 c1"; "g1 topicB 0 - 12 - c1"; "g1 topicC 1 10 17 7 c2"]
  /\ row_fails "g1 topicB 0 - 12 - c1" = true
  /\ lag_row "g1 topicC 1 10 17 7 c2" = Some (Ok {| topic := "topicC"; lag := 7 |})
  /\ extract_lag_values lag_dash = [{| topic := "topicA"; lag := 2 |}]
  /\ ~ In {| topic := "topicC"; lag := 7 |} (extract_lag_values lag_dash).
Proof.
  repeat split; try reflexivity.
  vm_compute. intros [H|[]]. discriminate H.
Qed.

(** A line with fewer than 7 columns is passed over without an error. *)
Lemma lag_row_short (line : string) :
  (List.length (PyStr.split_ws (PyStr.strip line)) < 7)%nat ->
  lag_row line = None /\ row_fails line = false.
Proof.
  intros Hshort. unfold row_fails, lag_row.
  destruct (Nat.leb_spec 7 (List.length (PyStr.split_ws (PyStr.strip line)))) as [H|H].
  - lia.
  - now split.
Qed.

(** [split_kafka_output] on the two texts of the specification. *)
Lemma split_kafka_output_examples :
  split_kafka_output ("a" ++ PyStr.CR ++ PyStr.LF ++ "b" ++ PyStr.CR ++ PyStr.LF ++ "c")
  = ["a"; "b"; "c"]
  /\ split_kafka_output "" = [""].
Proof. split; reflexivity. Qed.

(** ** The cloud-health actions *)

Lemma production_cloud_health_links :
  invoke_production "gamma"
  = Ok (Some {| cloud_link := "https://grafana.sso.plumenet.io/d/gamma-mocha-and-pytests/mocha-and-pytests" |})
  /\ invoke_production "kappa"
     = Ok (Some {| cloud_link := "https://grafana.sso.plumenet.io/d/kappa-mocha-and-pytests/mocha-and-pytests" |}).
Proof. split; reflexivity. Qed.

Lemma regex_match_alternatives_spec (alternatives : list string) (v : string) :
  regex_match_alternatives alternatives v = true
  <-> In v alternatives \/ In v (map (fun a => a ++ PyStr.LF) alternatives).
Proof.
  unfold regex_match_alternatives. rewrite existsb_exists. split.
  - intros [a [Ha Hv]]. apply orb_true_iff in Hv as [Hv|Hv];
      apply String.eqb_eq in Hv; subst v.
    + now left.
    + right. apply in_map_iff. now exists a.
  - intros [Hv|Hv].
    + exists v. split; [assumption|]. now rewrite String.eqb_refl.
    + apply in_map_iff in Hv as [a [<- Ha]]. exists a. split; [assumption|].
      rewrite String.eqb_refl. apply orb_true_r.
Qed.

(** A location is refused by the request model exactly when it is neither
    a listed code nor a listed code followed by a line feed. *)
Lemma production_validation (v : string) :
  (exists e, invoke_production v = Raise e)
  <-> ~ (In v production_locations
         \/ In v (map (fun a => a ++ PyStr.LF) production_locations)).
Proof.
  unfold invoke_production, new_ProductionCloudHealthRequest.
  rewrite <- regex_match_alternatives_spec.
  destruct (regex_match_alternatives production_locations v); split.
  - intros [e He]. discriminate He.
  - intros H. now contradiction H.
  - intros _ H. discriminate H.
  - intros _. eexists. reflexivity.
Qed.

Lemma development_validation (v : string) :
  (exists e, invoke_development v = Raise e)
  <-> ~ (In v development_locations
         \/ In v (map (fun a => a ++ PyStr.LF) development_locations)).
Proof.
  unfold invoke_development, new_DevelopmentCloudHealthRequest.
  rewrite <- regex_match_alternatives_spec.
  destruct (regex_match_alternatives development_locations v); split.
  - intros [e He]. discriminate He.
  - intros H. now contradiction H.
  - intros _ H. discriminate H.
  - intros _. eexists. reflexivity.
Qed.

(** C9 at the failing input: a listed code followed by a line feed is
    outside the allowed set, passes the validation of the request model
    and makes the action return [None]. *)
Theorem cloud_health_accepts_trailing_line_feed :
  ~ In ("gamma" ++ PyStr.LF) production_locations
  /\ new_ProductionCloudHealthRequest ("gamma" ++ PyStr.LF)
     = Ok {| cloud_location := "gamma" ++ PyStr.LF |}
  /\ invoke_production ("gamma" ++ PyStr.LF) = Ok None
  /\ ~ In ("ci" ++ PyStr.LF) development_locations
  /\ invoke_development ("ci" ++ PyStr.LF) = Ok None.
Proof.
  repeat split; try reflexivity.
  - vm_compute. intuition discriminate.
  - vm_compute. intuition discriminate.
Qed.

(** ** The topic aliases *)

(** C10: the three aliases give, for every request and every behaviour of
    the CI service, the outcome and the final world of
    [describe_kafka_topic]. *)
Theorem topic_aliases_equal_describe_kafka_topic
        (request : DescribeKafkaTopicRequest) (rt : Runtime) (w : World) :
  number_of_partitions_in_kafka_topic request rt w = describe_kafka_topic request rt w
  /\ replication_factor_of_kafka_topic request rt w = describe_kafka_topic request rt w
  /\ leader_and_replicas_for_kafka_topic request rt w = describe_kafka_topic request rt w.
Proof. destruct request as [name]. repeat split. Qed.

(** ** The job client *)

Lemma of_Z_head (n : Z) :
  exists c rest, PyStr.of_Z n = String c rest
                 /\ (PyStr.is_digit c = true \/ c = "-"%char).
Proof.
  unfold PyStr.of_Z, Z.to_int.
  destruct n as [|p|p]; simpl.
  - do 2 eexists. split; [reflexivity|now left].
  - destruct (Pos.to_uint p); simpl; do 2 eexists;
      (split; [reflexivity|now left]).
  - do 2 eexists. split; [reflexivity|now right].
Qed.

(** A value that is not a terminal status does not become one when
    pydantic turns it into a string. *)
Lemma str_validator_terminal (v : value) (s : string) :
  str_validator v = Some s -> terminal v = false -> terminal (VStr s) = false.
Proof.
  destruct v as [|[|]|n|s'|items|fields]; simpl; intros Hs Hv;
    try discriminate; injection Hs as <-; try reflexivity; try assumption.
  destruct (of_Z_head n) as [c [rest [-> [Hc| ->]]]]; [|reflexivity].
  unfold terminal, eq_str, is_str. simpl.
  destruct (Ascii.eqb_spec c "S"); [subst c; discriminate Hc|].
  destruct (Ascii.eqb_spec c "F"); [subst c; discriminate Hc|].
  reflexivity.
Qed.

(** [get_job_status] makes one status call and returns; when the remote
    job never reports a terminal result, neither does the answer. *)
Lemma get_job_status_total (request : JobStatusRequest) (rt : Runtime) (w : World) :
  exists r,
    get_job_status request rt w
    = (Ok r, after w (Get (status_endpoint request))
                   (fst (get_reply rt (trace w) (status_endpoint request))))
    /\ (never_terminal rt -> terminal (VStr (status r)) = false).
Proof.
  unfold get_job_status, try_except, bind, get_wrapper, lift, str_of_exn,
    new_JobStatusResponse, validated, ret, raise.
  destruct (get_reply rt (trace w) (status_endpoint request)) as [d [response|e]] eqn:Hreply;
    simpl.
  - destruct (subscript response "result") as [v|e] eqn:Hsub; simpl.
    + destruct (str_validator v) as [s|] eqn:Hv; simpl.
      * eexists. split; [reflexivity|]. intros Hnever. simpl.
        apply (str_validator_terminal v); [assumption|].
        apply (Hnever (trace w) (status_endpoint request) response).
        -- now rewrite Hreply.
        -- assumption.
      * eexists. split; [reflexivity|]. reflexivity.
    + eexists. split; [reflexivity|]. reflexivity.
  - eexists. split; [reflexivity|]. reflexivity.
Qed.

(** C4, as the code has it: [get_job_status] always returns.  After a
    transport failure the status is the empty string and the message is
    the text of the error; a remote result that is a string is passed on
    as the status, with the in-progress message unless it is [SUCCESS] or
    [FAILURE]. *)
Theorem get_job_status_never_raises
        (request : JobStatusRequest) (rt : Runtime) (w : World) :
  exists r w',
    get_job_status request rt w = (Ok r, w')
    /\ (forall e,
           snd (get_reply rt (trace w) (status_endpoint request)) = Raise e ->
           status r = "" /\ message r = str_exn rt e /\ build_logs r = None)
    /\ (forall response s,
           snd (get_reply rt (trace w) (status_endpoint request)) = Ok response ->
           subscript response "result" = Ok (VStr s) ->
           status r = s
           /\ message r = (if terminal (VStr s) then "Job status: " ++ s
                           else "Job is in progress.")
           /\ build_logs r = None).
Proof.
  unfold get_job_status, try_except, bind, get_wrapper, lift, str_of_exn,
    new_JobStatusResponse, validated, ret, raise.
  destruct (get_reply rt (trace w) (status_endpoint request)) as [d [response|e]];
    simpl.
  - destruct (subscript response "result") as [v|e] eqn:Hsub; simpl.
    + destruct (str_validator v) as [s|] eqn:Hv; simpl.
      * do 2 eexists. split; [reflexivity|]. split; [discriminate|].
        intros response' s' Hr Hs. injection Hr as <-.
        rewrite Hsub in Hs. injection Hs as ->.
        simpl in Hv. injection Hv as <-. simpl. repeat split.
      * do 2 eexists. split; [reflexivity|]. split; [discriminate|].
        intros response' s' Hr Hs. injection Hr as <-.
        rewrite Hsub in Hs. injection Hs as ->.
        discriminate Hv.
    + do 2 eexists. split; [reflexivity|]. split; [discriminate|].
      intros response' s' Hr Hs. injection Hr as <-.
      rewrite Hsub in Hs. discriminate Hs.
  - do 2 eexists. split; [reflexivity|]. split.
    + intros e' He. injection He as <-. simpl. repeat split.
    + discriminate.
Qed.

(** C4, as stated: after a transport failure the status is the empty
    string, not [UNKNOWN]; and a non-terminal remote result such as
    [ABORTED] is passed on unchanged, not as [PENDING]. *)
Lemma get_job_status_not_UNKNOWN :
  fst (get_job_status {| js_job_name := "kafka_list_topics"; js_build_number := None |}
                      ci_down start)
  = Ok {| status := ""; message := "connection refused"; build_logs := None |}
  /\ "" <> "UNKNOWN"
  /\ fst (get_job_status {| js_job_name := "kafka_list_topics"; js_build_number := None |}
                         ci_aborted start)
     = Ok {| status := "ABORTED"; message := "Job is in progress."; build_logs := None |}
  /\ "ABORTED" <> "PENDING".
Proof. repeat split; try reflexivity; discriminate. Qed.

(** A result of [null], which the CI service reports while a build runs,
    is refused by the response model; the refusal is caught like a
    transport failure. *)
Lemma get_job_status_null_result :
  fst (get_job_status {| js_job_name := "kafka_list_topics"; js_build_number := Some "12" |}
                      ci_running start)
  = Ok {| status := "";
          message := str_exn ci_running (ValidationError "JobStatusResponse" "status");
          build_logs := None |}.
Proof. reflexivity. Qed.

(** The polling loop is left once the elapsed time passes the timeout or
    the retry counter reaches its cap; fuel beyond the retries still
    allowed is enough.  Without a terminal status it makes at most that
    many rounds, ends with one of the two messages, and the clock stays
    within one round of the timeout. *)
Lemma wait_loop_ends (fuel : nat) :
  forall (params : BuildParams) (start_time retries : Z) (rt : Runtime) (w : World),
    0 <= retries <= max_retries ->
    (Z.to_nat (max_retries - retries) < fuel)%nat ->
    exists out w',
      wait_loop fuel params start_time retries rt w = Some (out, w')
      /\ (never_terminal rt ->
          exists k,
            (k <= Z.to_nat (max_retries - retries))%nat
            /\ trace w' = (trace w ++ poll_rounds params k)%list
            /\ ((out = Ok {| status := ""; message := timeout_message; build_logs := None |}
                 /\ timeout * ticks_per_second < now w' - start_time)
                \/ (out = Ok {| status := ""; message := retries_message; build_logs := None |}
                    /\ now w' - start_time <= timeout * ticks_per_second
                    /\ k = Z.to_nat (max_retries - retries)))
            /\ (forall d,
                   status_latency_within rt d ->
                   now w - start_time
                   <= timeout * ticks_per_second + (d + retry_delay * ticks_per_second) ->
                   now w' - start_time
                   <= timeout * ticks_per_second + (d + retry_delay * ticks_per_second))).
Proof.
  induction fuel as [|fuel IH]; intros params start_time retries rt w Hretries Hfuel.
  - lia.
  - cbn [wait_loop].
    rewrite Z.gtb_ltb, Z.geb_leb.
    destruct (Z.ltb_spec (timeout * ticks_per_second) (now w - start_time)) as [Hlate|Hearly].
    { do 2 eexists. split; [reflexivity|]. intros _. exists O.
      split; [lia|]. split; [simpl; now rewrite app_nil_r|]. split.
      - left. split; [reflexivity|assumption].
      - intros d _ Hnow. exact Hnow. }
    destruct (Z.leb_spec max_retries retries) as [Hmax|Hmore].
    { do 2 eexists. split; [reflexivity|]. intros _. exists O.
      split; [lia|]. split; [simpl; now rewrite app_nil_r|]. split.
      - right. split; [reflexivity|]. split; [assumption|lia].
      - intros d _ Hnow. exact Hnow. }
    destruct (get_job_status_total
                {| js_job_name := bp_job_name params;
                   js_build_number := Some (bp_build_number params) |} rt w)
      as [job_status [Hstatus Hpending]].
    rewrite Hstatus.
    destruct (terminal (VStr (status job_status))) eqn:Hterminal.
    { match goal with
      | |- exists out w', Some ?x = _ /\ _ => destruct x as [out w'] eqn:Hlogs
      end.
      exists out, w'. split; [reflexivity|].
      intros Hnever. specialize (Hpending Hnever). congruence. }
    destruct (IH params start_time (retries + 1) rt
                 (snd (time_sleep retry_delay rt
                         (after w (Get (status_endpoint
                                          {| js_job_name := bp_job_name params;
                                             js_build_number := Some (bp_build_number params) |}))
                                (fst (get_reply rt (trace w)
                                        (status_endpoint
                                           {| js_job_name := bp_job_name params;
                                              js_build_number := Some (bp_build_number params) |})))))))
      as [out [w' [Hloop Hrest]]].
    { lia. }
    { unfold max_retries in *. lia. }
    exists out, w'. split; [exact Hloop|].
    intros Hnever. destruct (Hrest Hnever) as [k [Hk [Htrace [Hout Hclock]]]].
    exists (S k). split; [unfold max_retries in *; lia|]. split.
    { rewrite Htrace. cbn [snd time_sleep after trace poll_rounds].
      rewrite <- !app_assoc. reflexivity. }
    split.
    { destruct Hout as [Hout|[Hout [Hnow Hcount]]]; [left; exact Hout|].
      right. split; [exact Hout|]. split; [exact Hnow|].
      unfold max_retries in *. lia. }
    intros d Hlatency _. apply (Hclock d Hlatency).
    cbn [snd time_sleep after now].
    pose proof (Hlatency (trace w)
                  (status_endpoint
                     {| js_job_name := bp_job_name params;
                        js_build_number := Some (bp_build_number params) |})) as Hd.
    lia.
Qed.

Lemma wait_loop_more_fuel (fuel : nat) :
  forall (params : BuildParams) (start_time retries : Z) (rt : Runtime) (w : World) r,
    wait_loop fuel params start_time retries rt w = Some r ->
    wait_loop (S fuel) params start_time retries rt w = Some r.
Proof.
  induction fuel as [|fuel IH]; intros params start_time retries rt w r Hrun.
  - discriminate Hrun.
  - cbn [wait_loop] in Hrun. cbn [wait_loop].
    destruct (now w - start_time >? timeout * ticks_per_second); [exact Hrun|].
    destruct (retries >=? max_retries); [exact Hrun|].
    destruct (get_job_status _ rt w) as [[job_status|e] w1]; [|exact Hrun].
    destruct (terminal (VStr (status job_status))); [exact Hrun|].
    apply IH in Hrun. exact Hrun.
Qed.

(** The result does not depend on the fuel once there are
    [max_retries + 1] iterations: [wait_for_job_completion] is what the
    loop computes. *)
Lemma wait_loop_fuel (fuel : nat) (params : BuildParams) (rt : Runtime) (w : World) :
  (11 <= fuel)%nat ->
  wait_for_job_completion_fuel fuel params rt w
  = Some (wait_for_job_completion params rt w).
Proof.
  intros Hfuel.
  assert (Hbase : wait_for_job_completion_fuel 11 params rt w
                  = Some (wait_for_job_completion params rt w)).
  { unfold wait_for_job_completion.
    destruct (wait_loop_ends 11 params (now w) 0 rt w) as [out [w' [Hrun _]]].
    - unfold max_retries. lia.
    - unfold max_retries. simpl. lia.
    - unfold wait_for_job_completion_fuel. rewrite Hrun. reflexivity. }
  induction Hfuel as [|fuel Hle IH]; [exact Hbase|].
  unfold wait_for_job_completion_fuel in *.
  now apply wait_loop_more_fuel.
Qed.



(** On a build that runs for ever the retry cap is met first: ten status
    calls of 200 ticks and ten sleeps of 5 seconds, 52 seconds in all. *)
Lemma wait_for_job_completion_running :
  never_terminal ci_running
  /\ status_latency_within ci_running 200
  /\ exists w',
      wait_for_job_completion
        {| bp_job_name := "kafka_list_topics"; bp_build_number := "12" |}
        ci_running start
      = (Ok {| status := ""; message := retries_message; build_logs := None |}, w')
      /\ now w' = 52000
      /\ List.length (trace w') = 20%nat.
Proof.
  split; [|split].
  - intros history endpoint response result Hreply Hresult.
    simpl in Hreply. injection Hreply as <-.
    simpl in Hresult. injection Hresult as <-. reflexivity.
  - intros history endpoint. simpl. lia.
  - eexists. split; [reflexivity|]. split; reflexivity.
Qed.

(** With status calls of 100 seconds the timeout is met first, at the
    check after the third round: 315 seconds have passed. *)
Lemma wait_for_job_completion_slow :
  exists w',
    wait_for_job_completion
      {| bp_job_name := "kafka_list_topics"; bp_build_number := "12" |}
      ci_slow start
    = (Ok {| status := ""; message := timeout_message; build_logs := None |}, w')
    /\ now w' = 315000
    /\ List.length (trace w') = 6%nat.
Proof. eexists. repeat split; reflexivity. Qed.


(** A queue item that is not found ends the queue loop at once, whatever
    number of attempts is left: one poll, no sleep, no build number. *)
Lemma queue_loop_not_found (n : nat) (queue_location : string)
      (rt : Runtime) (w : World) (d : Z) (queue_response : response) :
  get_full_reply rt (trace w) queue_location = (d, Ok queue_response) ->
  status_code queue_response = 404 ->
  queue_loop (S n) queue_location rt w
  = (Ok VNone, after w (GetFull queue_location) d).
Proof.
  intros Hreply Hcode.
  cbn [queue_loop]. unfold bind, get_wrapper_full_response.
  rewrite Hreply, Hcode. reflexivity.
Qed.

Lemma get_latest_build_number_trace (job_name : string) (rt : Runtime) (w : World) :
  trace (snd (get_latest_build_number job_name rt w))
  = (trace w ++ [GetFull ("/job/" ++ job_name ++ "/api/json")])%list.
Proof.
  unfold get_latest_build_number, bind, get_wrapper_full_response, lift, ret.
  destruct (get_full_reply rt (trace w) ("/job/" ++ job_name ++ "/api/json"))
    as [d [job_response|e]]; [|reflexivity].
  destruct (json job_response) as [job_data|e]; [|reflexivity].
  destruct (contains "builds" job_data) as [[|]|e]; try reflexivity.
  destruct (subscript job_data "builds") as [builds|e]; [|reflexivity].
  destruct (truthy builds); [|reflexivity].
  destruct (subscript0 builds) as [first|e]; [|reflexivity].
  destruct (subscript first "number"); reflexivity.
Qed.

(** The fallback loop makes at most [retry_count] rounds, each a sleep of
    10 seconds followed by one query of the build list. *)
Lemma latest_build_loop_rounds (retry_count : nat) (job_name : string) (rt : Runtime) :
  forall (build_number : value) (w : World),
  exists k,
    (k <= retry_count)%nat
    /\ trace (snd (latest_build_loop retry_count job_name build_number rt w))
       = (trace w ++ fallback_rounds job_name k)%list.
Proof.
  induction retry_count as [|n IH]; intros build_number w.
  - exists O. split; [lia|]. simpl. now rewrite app_nil_r.
  - cbn [latest_build_loop].
    destruct (is_None build_number).
    + unfold bind at 1. cbn [time_sleep].
      unfold bind at 1.
      pose proof (get_latest_build_number_trace job_name rt
                    (after w (Sleep 10) (10 * ticks_per_second))) as Htrace.
      destruct (get_latest_build_number job_name rt
                  (after w (Sleep 10) (10 * ticks_per_second)))
        as [[build_number'|e] w1].
      * destruct (IH build_number' w1) as [k [Hk Hrounds]].
        exists (S k). split; [lia|].
        rewrite Hrounds. simpl in Htrace. rewrite Htrace.
        cbn [fallback_rounds]. rewrite <- !app_assoc. reflexivity.
      * exists 1%nat. split; [lia|].
        simpl in Htrace. cbn [snd]. rewrite Htrace.
        cbn [fallback_rounds]. rewrite <- !app_assoc. reflexivity.
    + exists O. split; [lia|]. simpl. now rewrite app_nil_r.
Qed.

Lemma get_latest_build_number_no_builds (job_name : string) (rt : Runtime) (w : World) :
  no_builds (get_full_reply rt (trace w) ("/job/" ++ job_name ++ "/api/json")) ->
  exists d,
    get_latest_build_number job_name rt w
    = (Ok VNone, after w (GetFull ("/job/" ++ job_name ++ "/api/json")) d).
Proof.
  intros [d [job_response [fields [Hreply [Hjson Hbuilds]]]]]. exists d.
  unfold get_latest_build_number, bind, get_wrapper_full_response, lift.
  rewrite Hreply, Hjson. cbn [contains subscript].
  destruct Hbuilds as [Hbuilds|Hbuilds]; rewrite Hbuilds; reflexivity.
Qed.

Lemma get_latest_build_number_names_build (job_name : string) (rt : Runtime) (w : World)
      (number : Z) :
  names_build (get_full_reply rt (trace w) ("/job/" ++ job_name ++ "/api/json")) number ->
  exists d,
    get_latest_build_number job_name rt w
    = (Ok (VInt number), after w (GetFull ("/job/" ++ job_name ++ "/api/json")) d).
Proof.
  intros [d [job_response [fields [first [rest [Hreply [Hjson [Hbuilds Hnumber]]]]]]]].
  exists d.
  unfold get_latest_build_number, bind, get_wrapper_full_response, lift.
  rewrite Hreply, Hjson. cbn [contains subscript]. rewrite Hbuilds.
  cbn [truthy subscript0 subscript]. now rewrite Hnumber.
Qed.

Lemma fallback_reply_next (rt : Runtime) (before : list event) (job_name : string)
      (i : nat) :
  fallback_reply rt
    ((before ++ [Sleep 10]) ++ [GetFull ("/job/" ++ job_name ++ "/api/json")])%list
    job_name i
  = fallback_reply rt before job_name (S i).
Proof.
  unfold fallback_reply. cbn [fallback_rounds].
  now rewrite <- !app_assoc.
Qed.

(** Rounds of the fallback in which the job has no build: the loop goes
    on from the world they leave, with that many attempts fewer. *)
Lemma latest_build_loop_empty_rounds (job_name : string) (rt : Runtime) (k : nat) :
  forall (retry_count : nat) (w : World),
    (k <= retry_count)%nat ->
    (forall i, (i < k)%nat -> no_builds (fallback_reply rt (trace w) job_name i)) ->
    exists w',
      trace w' = (trace w ++ fallback_rounds job_name k)%list
      /\ latest_build_loop retry_count job_name VNone rt w
         = latest_build_loop (retry_count - k) job_name VNone rt w'
      /\ (forall i,
             fallback_reply rt (trace w') job_name i
             = fallback_reply rt (trace w) job_name (k + i)).
Proof.
  induction k as [|k IH]; intros retry_count w Hk Hempty.
  - exists w. rewrite Nat.sub_0_r, app_nil_r. repeat split.
  - destruct retry_count as [|retry_count]; [lia|].
    cbn [latest_build_loop is_None]. unfold bind at 1. cbn [time_sleep].
    unfold bind at 1.
    destruct (get_latest_build_number_no_builds job_name rt
                (after w (Sleep 10) (10 * ticks_per_second))) as [d Hlatest].
    { apply (Hempty O). lia. }
    rewrite Hlatest.
    destruct (IH retry_count
                (after (after w (Sleep 10) (10 * ticks_per_second))
                       (GetFull ("/job/" ++ job_name ++ "/api/json")) d))
      as [w' [Htrace [Hloop Hreplies]]].
    { lia. }
    { intros i Hi. cbn [after trace]. rewrite fallback_reply_next.
      apply Hempty. lia. }
    exists w'. split; [|split].
    + rewrite Htrace. cbn [after trace fallback_rounds].
      now rewrite <- !app_assoc.
    + exact Hloop.
    + intros i. rewrite Hreplies. cbn [after trace].
      now rewrite fallback_reply_next.
Qed.

(** The fallback finds the build named in round [k], after [k] rounds in
    which the job had no build. *)
Lemma latest_build_loop_finds (job_name : string) (rt : Runtime) (w : World)
      (retry_count k : nat) (number : Z) :
  (k < retry_count)%nat ->
  (forall i, (i < k)%nat -> no_builds (fallback_reply rt (trace w) job_name i)) ->
  names_build (fallback_reply rt (trace w) job_name k) number ->
  exists w',
    latest_build_loop retry_count job_name VNone rt w = (Ok (VInt number), w')
    /\ trace w' = (trace w ++ fallback_rounds job_name (S k))%list.
Proof.
  intros Hk Hempty Hfound.
  destruct (latest_build_loop_empty_rounds job_name rt k retry_count w)
    as [w1 [Htrace [Hloop Hreplies]]]; [lia|exact Hempty|].
  rewrite Hloop.
  destruct (retry_count - k)%nat as [|rest] eqn:Hrest; [lia|].
  cbn [latest_build_loop is_None]. unfold bind at 1. cbn [time_sleep].
  unfold bind at 1.
  destruct (get_latest_build_number_names_build job_name rt
              (after w1 (Sleep 10) (10 * ticks_per_second)) number) as [d Hlatest].
  { specialize (Hreplies O). rewrite Nat.add_0_r in Hreplies.
    unfold fallback_reply in Hreplies at 1. cbn [fallback_rounds app] in Hreplies.
    cbn [after trace]. rewrite Hreplies. exact Hfound. }
  rewrite Hlatest. eexists. split.
  - destruct rest; reflexivity.
  - cbn [after trace]. rewrite Htrace.
    assert (Hrounds : forall j,
               (fallback_rounds job_name (S j)
                = fallback_rounds job_name j
                    ++ [Sleep 10; GetFull ("/job/" ++ job_name ++ "/api/json")])%list).
    { induction j as [|j IHj]; [reflexivity|].
      cbn [fallback_rounds app] in *. now rewrite <- IHj. }
    rewrite (Hrounds k), <- !app_assoc. reflexivity.
Qed.

(** The fallback gives up after [retry_count] rounds in which the job
    had no build. *)
Lemma latest_build_loop_gives_up (job_name : string) (rt : Runtime) (w : World)
      (retry_count : nat) :
  (forall i, (i < retry_count)%nat ->
             no_builds (fallback_reply rt (trace w) job_name i)) ->
  exists w',
    latest_build_loop retry_count job_name VNone rt w = (Ok VNone, w')
    /\ trace w' = (trace w ++ fallback_rounds job_name retry_count)%list.
Proof.
  intros Hempty.
  destruct (latest_build_loop_empty_rounds job_name rt retry_count retry_count w)
    as [w1 [Htrace [Hloop _]]]; [lia|exact Hempty|].
  rewrite Hloop, Nat.sub_diag. exists w1. now split.
Qed.

(** C6: when the trigger is accepted and the queue item is not found at
    the first poll, the queue resolution ends after that one poll with no
    build number (as it does at any later poll that is not found) and
    [trigger_job] goes on to the fallback, which asks the CI service for
    the build list after a sleep of 10 seconds, up to 5 times.  If the
    job has no build in the first [k] rounds ([k < 5]) and the build list
    of round [k] begins with build [number], the answer is a success with
    that number, after the trigger, the one poll and [k + 1] rounds.  If
    the job has no build in any of the 5 rounds, the answer is the
    failure with the failed-to-retrieve message, after the 5 rounds.  In
    every case the answer is the one that the outcome of the fallback
    loop decides, and the calls are the trigger, the one poll and at most
    5 rounds. *)
Theorem trigger_job_queue_item_not_found
        (request : TriggerJobRequest) (rt : Runtime) (w : World)
        (d1 d2 : Z) (posted queue_response : response) (queue_location : string) :
  post_full_reply rt (trace w) (trigger_endpoint request) = (d1, Ok posted) ->
  status_code posted = 201 ->
  Location posted = Some queue_location ->
  get_full_reply rt (trace w ++ [Post (trigger_endpoint request)])%list queue_location
  = (d2, Ok queue_response) ->
  status_code queue_response = 404 ->
  get_build_number_from_queue queue_location (tj_job_name request) rt
    (after w (Post (trigger_endpoint request)) d1)
  = (Ok VNone,
     after (after w (Post (trigger_endpoint request)) d1) (GetFull queue_location) d2)
  /\ (forall n w0 d0 r0,
         get_full_reply rt (trace w0) queue_location = (d0, Ok r0) ->
         status_code r0 = 404 ->
         queue_loop (S n) queue_location rt w0
         = (Ok VNone, after w0 (GetFull queue_location) d0))
  /\ (forall k number,
         (k < 5)%nat ->
         (forall i,
             (i < k)%nat ->
             no_builds
               (fallback_reply rt
                  (trace w ++ [Post (trigger_endpoint request); GetFull queue_location])
                  (tj_job_name request) i)) ->
         names_build
           (fallback_reply rt
              (trace w ++ [Post (trigger_endpoint request); GetFull queue_location])
              (tj_job_name request) k) number ->
         fst (trigger_job request rt w)
         = Ok {| Jobs.success := true;
                 tj_message := "Job triggered successfully.";
                 build_number := Some (PyStr.of_Z number) |}
         /\ trace (snd (trigger_job request rt w))
            = (trace w ++ Post (trigger_endpoint request) :: GetFull queue_location
                     :: fallback_rounds (tj_job_name request) (S k))%list)
  /\ ((forall i,
          (i < 5)%nat ->
          no_builds
            (fallback_reply rt
               (trace w ++ [Post (trigger_endpoint request); GetFull queue_location])
               (tj_job_name request) i)) ->
      fst (trigger_job request rt w)
      = Ok {| Jobs.success := false;
              tj_message := no_build_number_message;
              build_number := None |}
      /\ trace (snd (trigger_job request rt w))
         = (trace w ++ Post (trigger_endpoint request) :: GetFull queue_location
                  :: fallback_rounds (tj_job_name request) 5)%list)
  /\ trigger_job request rt w
     = (Ok (fallback_answer rt
              (fst (latest_build_loop 5 (tj_job_name request) VNone rt
                      (after (after w (Post (trigger_endpoint request)) d1)
                             (GetFull queue_location) d2)))),
        snd (latest_build_loop 5 (tj_job_name request) VNone rt
               (after (after w (Post (trigger_endpoint request)) d1)
                      (GetFull queue_location) d2)))
  /\ exists k,
      (k <= 5)%nat
      /\ trace (snd (trigger_job request rt w))
         = (trace w ++ Post (trigger_endpoint request) :: GetFull queue_location
                  :: fallback_rounds (tj_job_name request) k)%list.
Proof.
  intros Hpost Hcode Hlocation Hqueue Hgone.
  assert (Hphase1 :
            get_build_number_from_queue queue_location (tj_job_name request) rt
              (after w (Post (trigger_endpoint request)) d1)
            = (Ok VNone,
               after (after w (Post (trigger_endpoint request)) d1)
                     (GetFull queue_location) d2)).
  { unfold get_build_number_from_queue.
    now apply queue_loop_not_found with (queue_response := queue_response). }
  assert (Hanswer :
            trigger_job request rt w
            = (Ok (fallback_answer rt
                     (fst (latest_build_loop 5 (tj_job_name request) VNone rt
                             (after (after w (Post (trigger_endpoint request)) d1)
                                    (GetFull queue_location) d2)))),
               snd (latest_build_loop 5 (tj_job_name request) VNone rt
                      (after (after w (Post (trigger_endpoint request)) d1)
                             (GetFull queue_location) d2)))).
  { unfold trigger_job, try_except.
    unfold bind at 1. unfold post_wrapper_full_response.
    rewrite Hpost, Hcode, Hlocation. cbn [negb Z.eqb Pos.eqb].
    unfold bind at 1. rewrite Hphase1.
    unfold bind at 1.
    destruct (latest_build_loop 5 (tj_job_name request) VNone rt
                (after (after w (Post (trigger_endpoint request)) d1)
                       (GetFull queue_location) d2)) as [[v|e] w3];
      [|reflexivity].
    destruct v as [|b|n|s|items|fields]; try reflexivity.
    destruct b; reflexivity. }
  assert (Hbefore :
            trace (after (after w (Post (trigger_endpoint request)) d1)
                         (GetFull queue_location) d2)
            = (trace w ++ [Post (trigger_endpoint request); GetFull queue_location])%list).
  { cbn [after trace]. now rewrite <- app_assoc. }
  split; [exact Hphase1|].
  split; [intros n w0 d0 r0; apply queue_loop_not_found|].
  split; [|split; [|split; [exact Hanswer|]]].
  - intros k number Hk Hempty Hfound.
    rewrite <- Hbefore in Hempty, Hfound.
    destruct (latest_build_loop_finds _ rt _ 5 k number Hk Hempty Hfound)
      as [w' [Hloop Htrace]].
    rewrite Hanswer, Hloop. cbn [fst snd fallback_answer str_validator].
    split; [reflexivity|].
    rewrite Htrace, Hbefore, <- app_assoc. reflexivity.
  - intros Hempty. rewrite <- Hbefore in Hempty.
    destruct (latest_build_loop_gives_up _ rt _ 5 Hempty) as [w' [Hloop Htrace]].
    rewrite Hanswer, Hloop. cbn [fst snd fallback_answer].
    split; [reflexivity|].
    rewrite Htrace, Hbefore, <- app_assoc. reflexivity.
  - rewrite Hanswer. cbn [snd].
    destruct (latest_build_loop_rounds 5 (tj_job_name request) rt VNone
                (after (after w (Post (trigger_endpoint request)) d1)
                       (GetFull queue_location) d2)) as [k [Hk Hrounds]].
    exists k. split; [exact Hk|].
    rewrite Hrounds. cbn [after trace]. rewrite <- !app_assoc. reflexivity.
Qed.

(** The job left the queue before the first poll and its build list
    names build 42 at once: success after one round of the fallback. *)
Lemma trigger_job_queue_item_not_found_witness :
  post_full_reply ci_left_queue (trace start)
    (trigger_endpoint
       {| tj_job_name := "kafka_list_topics"; parameters := Some "?regex=." |})
  = (0, Ok {| status_code := 201; Location := Some queue_item; json := no_body |})
  /\ get_full_reply ci_left_queue
       (trace start
          ++ [Post (trigger_endpoint
                      {| tj_job_name := "kafka_list_topics";
                         parameters := Some "?regex=." |})])%list
       queue_item
     = (0, Ok {| status_code := 404; Location := None; json := no_body |})
  /\ fst (trigger_job
            {| tj_job_name := "kafka_list_topics"; parameters := Some "?regex=." |}
            ci_left_queue start)
     = Ok {| Jobs.success := true;
             tj_message := "Job triggered successfully.";
             build_number := Some (PyStr.of_Z 42) |}
  /\ trace (snd (trigger_job
                   {| tj_job_name := "kafka_list_topics"; parameters := Some "?regex=." |}
                   ci_left_queue start))
     = [Post "/job/kafka_list_topics/buildWithParameters?regex=.";
        GetFull queue_item;
        Sleep 10;
        GetFull "/job/kafka_list_topics/api/json"].
Proof.
  split; [reflexivity|]. split; [reflexivity|].
  refine (proj1 (proj2 (proj2
            (trigger_job_queue_item_not_found
               {| tj_job_name := "kafka_list_topics"; parameters := Some "?regex=." |}
               ci_left_queue start 0 0
               {| status_code := 201; Location := Some queue_item; json := no_body |}
               {| status_code := 404; Location := None; json := no_body |}
               queue_item eq_refl eq_refl eq_refl eq_refl eq_refl)))
            O 42 _ _ _).
  - lia.
  - intros i Hi. lia.
  - do 5 eexists. repeat split; reflexivity.
Defined.

(** When the job has no build in any of the five rounds, the answer is
    the failure with the failed-to-retrieve message, after five rounds
    and 50 seconds of sleep. *)
Lemma trigger_job_no_build_run :
  trigger_job {| tj_job_name := "kafka_list_topics"; parameters := Some "?regex=." |}
              ci_no_build start
  = (Ok {| Jobs.success := false; tj_message := no_build_number_message;
           build_number := None |},
     {| trace := Post "/job/kafka_list_topics/buildWithParameters?regex=."
                   :: GetFull queue_item :: fallback_rounds "kafka_list_topics" 5;
        now := 50000 |}).
Proof. reflexivity. Qed.

(** The same run, computed: one poll of the queue item, one round of the
    fallback, build 42. *)
Lemma trigger_job_left_queue_run :
  trigger_job {| tj_job_name := "kafka_list_topics"; parameters := Some "?regex=." |}
              ci_left_queue start
  = (Ok {| Jobs.success := true; tj_message := "Job triggered successfully.";
           build_number := Some "42" |},
     {| trace := [Post "/job/kafka_list_topics/buildWithParameters?regex=.";
                  GetFull queue_item;
                  Sleep 10;
                  GetFull "/job/kafka_list_topics/api/json"];
        now := 10000 |}).
Proof. reflexivity. Qed.

Lemma new_TriggerJobResponse_fields (flag : bool) (text : string) (v : value)
      (rt : Runtime) (w : World) (r : TriggerJobResponse) (w' : World) :
  new_TriggerJobResponse flag text v rt w = (Ok r, w') ->
  Jobs.success r = flag
  /\ (is_None v = true -> build_number r = None)
  /\ (is_None v = false -> build_number r <> None).
Proof.
  unfold new_TriggerJobResponse, bind, validated, ret, raise.
  destruct (is_None v).
  - intros H. injection H as <- _. simpl. repeat split; congruence.
  - destruct (str_validator v) as [s|]; intros H; [|discriminate H].
    injection H as <- _. simpl. repeat split; congruence.
Qed.

(** C7: [trigger_job] always returns, whatever the request and whatever
    the CI service does, and its answer carries a build number exactly
    when it reports success. *)
Theorem trigger_job_build_number_iff_success
        (request : TriggerJobRequest) (rt : Runtime) (w : World) :
  exists r w',
    trigger_job request rt w = (Ok r, w')
    /\ (Jobs.success r = false -> build_number r = None)
    /\ (Jobs.success r = true -> build_number r <> None).
Proof.
  assert (Hfail : forall text w0,
             exists r w',
               new_TriggerJobResponse false text VNone rt w0 = (Ok r, w')
               /\ (Jobs.success r = false -> build_number r = None)
               /\ (Jobs.success r = true -> build_number r <> None)).
  { intros text w0. do 2 eexists. split; [reflexivity|].
    simpl. split; [reflexivity|discriminate]. }
  unfold trigger_job, try_except.
  match goal with
  | |- exists r w', match ?body rt w with _ => _ end = _ /\ _ =>
      destruct (body rt w) as [[r|e] w1] eqn:Hbody
  end.
  2:{ unfold bind, str_of_exn. apply Hfail. }
  exists r, w1. split; [reflexivity|].
  revert Hbody. unfold bind at 1.
  destruct (post_wrapper_full_response (trigger_endpoint request) rt w)
    as [[posted|e] w2]; [|discriminate].
  destruct (negb (status_code posted =? 201)).
  { intros H. apply new_TriggerJobResponse_fields in H as [Hs [Hn _]].
    split; [intros _; now apply Hn|congruence]. }
  destruct (Location posted) as [queue_location|].
  2:{ intros H. apply new_TriggerJobResponse_fields in H as [Hs [Hn _]].
      split; [intros _; now apply Hn|congruence]. }
  unfold bind at 1.
  destruct (get_build_number_from_queue queue_location (tj_job_name request) rt w2)
    as [[found|e] w3]; [|discriminate].
  unfold bind at 1.
  destruct (latest_build_loop 5 (tj_job_name request) found rt w3)
    as [[found'|e] w4]; [|discriminate].
  destruct (is_None found') eqn:Hnone; cbn [negb].
  - intros H. apply new_TriggerJobResponse_fields in H as [Hs [Hn _]].
    split; [intros _; now apply Hn|congruence].
  - intros H. apply new_TriggerJobResponse_fields in H as [Hs [_ Hn]].
    split; [congruence|intros _; now apply Hn].
Qed.

(** ** The actions that list names *)

Lemma all_str_map_VStr (lines : list string) : all_str (map VStr lines) = Some lines.
Proof.
  induction lines as [|line rest IH]; [reflexivity|].
  simpl. now rewrite IH.
Qed.

(** A string where the model wants a list of strings is refused. *)
Lemma new_ListKafkaConsumerGroupsResponse_str
      (text : string) (flag : bool) (rt : Runtime) (w : World) :
  new_ListKafkaConsumerGroupsResponse (VStr text) flag rt w
  = (Raise (ValidationError "ListKafkaConsumerGroupsResponse" "consumer_groups"), w).
Proof. reflexivity. Qed.

Lemma new_ListKafkaConsumerGroupsResponse_lines
      (lines : list string) (flag : bool) (rt : Runtime) (w : World) :
  new_ListKafkaConsumerGroupsResponse (VList (map VStr lines)) flag rt w
  = (Ok {| consumer_groups := lines; ConsumerGroups.success := flag |}, w).
Proof.
  unfold new_ListKafkaConsumerGroupsResponse, bind, validated, list_str_validator.
  now rewrite all_str_map_VStr.
Qed.

(** [list_kafka_consumer_groups] never returns a failure response: it
    returns a success, or the validation error of its response model
    leaves the action. *)
Lemma list_kafka_consumer_groups_outcomes
      (request : ListKafkaConsumerGroupsRequest) (rt : Runtime) (w : World) :
  match fst (list_kafka_consumer_groups request rt w) with
  | Ok r => ConsumerGroups.success r = true
  | Raise e => e = ValidationError "ListKafkaConsumerGroupsResponse" "consumer_groups"
  end.
Proof.
  unfold list_kafka_consumer_groups, try_except.
  match goal with
  | |- context [match ?body rt w with pair _ _ => _ end] =>
      destruct (body rt w) as [[r|e] w1] eqn:Hbody
  end; [|reflexivity].
  cbn [fst]. revert Hbody.
  unfold or_return, stage, try_except, bind, ret, raise, str_of_exn, str_of_status.
  destruct (trigger_job _ rt w) as [[job|e1] w2];
    [|rewrite new_ListKafkaConsumerGroupsResponse_str; discriminate].
  destruct (new_BuildParams _ _ rt w2) as [[params|e2] w3]; [|discriminate].
  destruct (wait_for_job_completion params rt w3) as [[waited|e3] w4]; [|discriminate].
  destruct (negb (status waited =? "SUCCESS")%string);
    [rewrite new_ListKafkaConsumerGroupsResponse_str; discriminate|].
  destruct (new_ArtifactRequest _ _ _ rt w4) as [[artifact_request|e4] w5];
    [|rewrite new_ListKafkaConsumerGroupsResponse_str; discriminate].
  destruct (get_artifact artifact_request rt w5) as [[output|e5] w6];
    [|rewrite new_ListKafkaConsumerGroupsResponse_str; discriminate].
  destruct (truthy output);
    [|rewrite new_ListKafkaConsumerGroupsResponse_str; discriminate].
  destruct output as [|b|n|text|items|fields]; try discriminate.
  cbn [as_str]. unfold ret. rewrite new_ListKafkaConsumerGroupsResponse_lines.
  intros H. injection H as <- _. reflexivity.
Qed.

(** The sibling action does turn every failure into a response. *)
Lemma list_kafka_topics_never_raises
      (request : ListKafkaTopicsRequest) (rt : Runtime) (w : World) :
  exists r w', list_kafka_topics request rt w = (Ok r, w').
Proof.
  unfold list_kafka_topics, try_except.
  match goal with
  | |- context [match ?body rt w with pair _ _ => _ end] =>
      destruct (body rt w) as [[r|e] w1]
  end.
  - now exists r, w1.
  - do 2 eexists. reflexivity.
Qed.

Lemma describe_kafka_topic_never_raises
      (request : DescribeKafkaTopicRequest) (rt : Runtime) (w : World) :
  exists r w', describe_kafka_topic request rt w = (Ok r, w').
Proof.
  unfold describe_kafka_topic, try_except.
  match goal with
  | |- context [match ?body rt w with pair _ _ => _ end] =>
      destruct (body rt w) as [[r|e] w1]
  end.
  - now exists r, w1.
  - do 2 eexists. reflexivity.
Qed.

(** C3 at the failing input: the CI service answers the trigger with
    status 500.  [trigger_job] reports the failure, the wait stage raises
    on the missing build number, and [list_kafka_consumer_groups] ends
    with the validation error of its own response model, where
    [list_kafka_topics] returns a failure response. *)
Theorem list_kafka_consumer_groups_raises :
  fst (trigger_job {| tj_job_name := "kafka_list_consumer_groups";
                      parameters := Some "?regex=." |} ci_rejects start)
  = Ok {| Jobs.success := false;
          tj_message := "Unexpected response status code: 500";
          build_number := None |}
  /\ fst (list_kafka_consumer_groups {| consumer_group_name := "." |} ci_rejects start)
     = Raise (ValidationError "ListKafkaConsumerGroupsResponse" "consumer_groups")
  /\ fst (list_kafka_topics {| lt_topic_name := "." |} ci_rejects start)
     = Ok {| topics := "Error waiting for job completion: "
                         ++ str_exn ci_rejects (ValidationError "BuildParams" "build_number");
             lt_success := false |}.
Proof. repeat split; reflexivity. Qed.

Lemma new_ArtifactRequest_fields (job_name : string) (number : option string)
      (path : string) (rt : Runtime) (w : World) (r : ArtifactRequest) (w' : World) :
  new_ArtifactRequest job_name number path rt w = (Ok r, w') ->
  w' = w /\ ar_job_name r = job_name /\ artifact_path r = path.
Proof.
  unfold new_ArtifactRequest, bind, validated, ret, raise.
  destruct number as [s|]; [|discriminate].
  destruct (int_validator s) as [n|]; [|discriminate].
  intros H. injection H as <- <-. now repeat split.
Qed.

(** The artifact call: one [Get] of the artifact address, answered from
    the history before it. *)
Lemma get_artifact_reply (request : ArtifactRequest) (rt : Runtime) (w : World)
      (output : value) (w' : World) :
  get_artifact request rt w = (Ok output, w') ->
  exists endpoint,
    endpoint = "/job/" ++ ar_job_name request ++ "/"
                 ++ PyStr.of_Z (ar_build_number request) ++ "/artifact/"
                 ++ artifact_path request
    /\ trace w' = (trace w ++ [Get endpoint])%list
    /\ snd (get_reply rt (trace w) endpoint) = Ok output.
Proof.
  unfold get_artifact, get_wrapper.
  destruct (get_reply rt (trace w) _) as [d reply] eqn:Hreply.
  intros H. injection H as -> <-.
  eexists. split; [reflexivity|]. split; [reflexivity|].
  now rewrite Hreply.
Qed.

(** C8, as the code has it: [split_kafka_output] splits at every
    carriage return followed by a line feed and keeps every piece.  A
    response of [list_kafka_consumer_groups] is a success whose body is
    [split_kafka_output] of the text just fetched as the artifact
    [output.txt].  A success of [list_kafka_topics] carries that artifact
    as one string, as pydantic takes it for a [str] field: the raw text,
    not split. *)
Theorem list_actions_response_bodies :
  (split_kafka_output ("a" ++ PyStr.CR ++ PyStr.LF ++ "b" ++ PyStr.CR ++ PyStr.LF ++ "c")
   = ["a"; "b"; "c"]
   /\ split_kafka_output "" = [""])
  /\ (forall request rt w r w',
         list_kafka_consumer_groups request rt w = (Ok r, w') ->
         exists history n output,
           trace w'
           = (history ++ [Get ("/job/kafka_list_consumer_groups/" ++ PyStr.of_Z n
                                 ++ "/artifact/output.txt")])%list
           /\ snd (get_reply rt history
                     ("/job/kafka_list_consumer_groups/" ++ PyStr.of_Z n
                        ++ "/artifact/output.txt")) = Ok (VStr output)
           /\ consumer_groups r = split_kafka_output output
           /\ ConsumerGroups.success r = true)
  /\ (forall request rt w r w',
         list_kafka_topics request rt w = (Ok r, w') ->
         lt_success r = true ->
         exists history n output,
           trace w'
           = (history ++ [Get ("/job/kafka_list_topics/" ++ PyStr.of_Z n
                                 ++ "/artifact/output.txt")])%list
           /\ snd (get_reply rt history
                     ("/job/kafka_list_topics/" ++ PyStr.of_Z n
                        ++ "/artifact/output.txt")) = Ok output
           /\ str_validator output = Some (topics r)
           /\ (forall text, output = VStr text -> topics r = text)).
Proof.
  split; [split; reflexivity|]. split.
  - intros request rt w r w'.
    unfold list_kafka_consumer_groups, try_except.
    match goal with
    | |- context [match ?body rt w with pair _ _ => _ end] =>
        destruct (body rt w) as [[r0|e] w1] eqn:Hbody
    end; [|rewrite new_ListKafkaConsumerGroupsResponse_str; discriminate].
    intros H. injection H as -> ->. revert Hbody.
    unfold or_return, stage, try_except, bind, ret, raise, str_of_exn, str_of_status.
    destruct (trigger_job _ rt w) as [[job|e1] w2];
      [|rewrite new_ListKafkaConsumerGroupsResponse_str; discriminate].
    destruct (new_BuildParams _ _ rt w2) as [[params|e2] w3]; [|discriminate].
    destruct (wait_for_job_completion params rt w3) as [[waited|e3] w4]; [|discriminate].
    destruct (negb (status waited =? "SUCCESS")%string);
      [rewrite new_ListKafkaConsumerGroupsResponse_str; discriminate|].
    destruct (new_ArtifactRequest _ _ _ rt w4) as [[artifact_request|e4] w5] eqn:Hrequest;
      [|rewrite new_ListKafkaConsumerGroupsResponse_str; discriminate].
    destruct (get_artifact artifact_request rt w5) as [[output|e5] w6] eqn:Hartifact;
      [|rewrite new_ListKafkaConsumerGroupsResponse_str; discriminate].
    destruct (truthy output);
      [|rewrite new_ListKafkaConsumerGroupsResponse_str; discriminate].
    destruct output as [|b|n|text|items|fields]; try discriminate.
    cbn [as_str]. unfold ret. rewrite new_ListKafkaConsumerGroupsResponse_lines.
    intros H. injection H as <- <-.
    apply new_ArtifactRequest_fields in Hrequest as [-> [Hname Hpath]].
    apply get_artifact_reply in Hartifact as [endpoint [-> [Htrace Hreply]]].
    rewrite Hname, Hpath in Htrace, Hreply.
    exists (trace w4), (ar_build_number artifact_request), text.
    now repeat split.
  - intros request rt w r w'.
    unfold list_kafka_topics, try_except.
    match goal with
    | |- context [match ?body rt w with pair _ _ => _ end] =>
        destruct (body rt w) as [[r0|e] w1] eqn:Hbody
    end.
    2:{ unfold bind, str_of_exn. cbn. intros H. injection H as <- _. discriminate. }
    intros H. injection H as -> ->. revert Hbody.
    unfold or_return, stage, try_except, bind, ret, raise, str_of_exn, str_of_status.
    destruct (trigger_job _ rt w) as [[job|e1] w2];
      [|cbn; intros H; injection H as <- _; discriminate].
    destruct (new_BuildParams _ _ rt w2) as [[params|e2] w3].
    2:{ cbn. intros H. injection H as <- _. discriminate. }
    destruct (wait_for_job_completion params rt w3) as [[waited|e3] w4].
    2:{ cbn. intros H. injection H as <- _. discriminate. }
    destruct (negb (status waited =? "SUCCESS")%string).
    { cbn. intros H. injection H as <- _. discriminate. }
    destruct (new_ArtifactRequest _ _ _ rt w4) as [[artifact_request|e4] w5] eqn:Hrequest.
    2:{ cbn. intros H. injection H as <- _. discriminate. }
    destruct (get_artifact artifact_request rt w5) as [[output|e5] w6] eqn:Hartifact.
    2:{ cbn. intros H. injection H as <- _. discriminate. }
    destruct (truthy output).
    2:{ cbn. intros H. injection H as <- _. discriminate. }
    unfold new_ListKafkaTopicsResponse, bind, validated, ret, raise.
    destruct (str_validator output) as [s|] eqn:Hstr; [|discriminate].
    intros H. injection H as <- <-. intros _.
    apply new_ArtifactRequest_fields in Hrequest as [-> [Hname Hpath]].
    apply get_artifact_reply in Hartifact as [endpoint [-> [Htrace Hreply]]].
    rewrite Hname, Hpath in Htrace, Hreply.
    exists (trace w4), (ar_build_number artifact_request), output.
    repeat split; try assumption.
    intros text ->. simpl in Hstr. now injection Hstr as <-.
Qed.

(** C8, as stated: on a run that succeeds with the artifact
    [a CR LF b], [list_kafka_consumer_groups] answers with the two names,
    but the body of [list_kafka_topics] is the artifact itself, one
    string with the separator still in it, not the list of its lines. *)
Lemma list_kafka_topics_body_not_split :
  split_kafka_output two_names = ["a"; "b"]
  /\ fst (list_kafka_consumer_groups {| consumer_group_name := "." |}
            (ci_succeeds two_names) start)
     = Ok {| consumer_groups := ["a"; "b"]; ConsumerGroups.success := true |}
  /\ fst (list_kafka_topics {| lt_topic_name := "." |} (ci_succeeds two_names) start)
     = Ok {| topics := two_names; lt_success := true |}
  /\ VStr two_names <> VList (map VStr (split_kafka_output two_names))
  /\ two_names <> "a"
  /\ PyStr.find two_names (PyStr.CR ++ PyStr.LF) = 1.
Proof.
  repeat split; try reflexivity; discriminate.
Qed.

(** * Further properties of the parsers *)

Lemma append_empty_r (s : string) : s ++ "" = s.
Proof. induction s as [|c s IH]; simpl; [reflexivity|now rewrite IH]. Qed.

Lemma append_assoc' (a b c : string) : (a ++ b) ++ c = a ++ b ++ c.
Proof. induction a as [|x a IH]; simpl; [reflexivity|now rewrite IH]. Qed.

Lemma length_append' (a b : string) :
  String.length (a ++ b) = (String.length a + String.length b)%nat.
Proof. induction a as [|x a IH]; simpl; [reflexivity|now rewrite IH]. Qed.

Lemma prefix_split (p : string) :
  forall s, prefix p s = true -> exists rest, s = p ++ rest.
Proof.
  induction p as [|a p IH]; intros s H.
  - exists s. reflexivity.
  - destruct s as [|b s]; simpl in H; [discriminate H|].
    destruct (ascii_dec a b) as [->|]; [|discriminate H].
    destruct (IH s H) as [rest ->]. now exists rest.
Qed.

Lemma prefix_append (p rest : string) : prefix p (p ++ rest) = true.
Proof.
  induction p as [|a p IH]; simpl.
  - now destruct rest.
  - destruct (ascii_dec a a) as [_|n]; [exact IH|now contradiction n].
Qed.

Lemma split_from_skip (sep passed : string) :
  forall rest cur,
    PyStr.split_from sep (passed ++ rest) cur (String.length passed)
    = PyStr.split_from sep rest cur O.
Proof.
  induction passed as [|c passed IH]; intros rest cur; simpl.
  - now destruct rest.
  - apply IH.
Qed.

Lemma split_from_nonempty (sep s cur : string) (skip : nat) :
  PyStr.split_from sep s cur skip <> [].
Proof.
  revert cur skip. induction s as [|c s IH]; intros cur skip; cbn [PyStr.split_from].
  - discriminate.
  - destruct skip; [|apply IH].
    destruct (prefix sep (String c s)); [discriminate|apply IH].
Qed.

Lemma concat_cons (sep piece : string) (pieces : list string) :
  pieces <> [] ->
  String.concat sep (piece :: pieces) = piece ++ sep ++ String.concat sep pieces.
Proof. destruct pieces; [intros H; now contradiction H|reflexivity]. Qed.

(** Joining the pieces with the separator gives back what was split. *)
Lemma concat_split_from (sep : string) :
  sep <> "" ->
  forall (n : nat) (s cur : string),
    (String.length s <= n)%nat ->
    String.concat sep (PyStr.split_from sep s cur O) = cur ++ s.
Proof.
  intros Hsep. destruct sep as [|a sep']; [now contradiction Hsep|].
  induction n as [|n IH]; intros s cur Hlen.
  - destruct s; [simpl; now rewrite append_empty_r|simpl in Hlen; lia].
  - destruct s as [|c s]; [simpl; now rewrite append_empty_r|].
    cbn [PyStr.split_from].
    destruct (prefix (String a sep') (String c s)) eqn:Hprefix.
    + destruct (prefix_split _ _ Hprefix) as [rest Hrest].
      simpl in Hrest. injection Hrest as -> ->.
      cbn [String.length Nat.pred]. rewrite split_from_skip.
      assert (Hrec : String.concat (String a sep') (PyStr.split_from (String a sep') rest "" O)
                     = "" ++ rest).
      { apply IH. simpl in Hlen. rewrite length_append' in Hlen. lia. }
      rewrite concat_cons by apply split_from_nonempty.
      rewrite Hrec. reflexivity.
    + rewrite IH by (simpl in Hlen; lia).
      rewrite append_assoc'. reflexivity.
Qed.

(** X1: [split_kafka_output] loses nothing: it never returns the empty
    list, and joining its lines with carriage return and line feed gives
    back the output it was given. *)
Theorem split_kafka_output_join (output : string) :
  split_kafka_output output <> []
  /\ String.concat (PyStr.CR ++ PyStr.LF) (split_kafka_output output) = output.
Proof.
  unfold split_kafka_output, PyStr.split. split.
  - apply split_from_nonempty.
  - assert (Hsep : PyStr.CR ++ PyStr.LF <> "") by (vm_compute; discriminate).
    rewrite (concat_split_from _ Hsep (String.length output)); [reflexivity|lia].
Qed.

Lemma in_row_entries (entry : TopicLag) (lines : list string) :
  In entry (row_entries lines)
  <-> exists line, In line lines /\ lag_row line = Some (Ok entry).
Proof.
  unfold row_entries. rewrite in_flat_map. split.
  - intros [line [Hin Hentry]]. exists line. split; [assumption|].
    destruct (lag_row line) as [[e|e]|]; try contradiction.
    destruct Hentry as [->|[]]. reflexivity.
  - intros [line [Hin Hrow]]. exists line. split; [assumption|].
    rewrite Hrow. now left.
Qed.

(** The loop only ever appends entries of its lines, in their order. *)
Lemma lag_loop_prefix (lines : list string) :
  forall lag_values,
  exists rest,
    (lag_values ++ row_entries lines)%list
    = (snd (lag_loop lines lag_values) ++ rest)%list.
Proof.
  induction lines as [|line lines IH]; intros acc.
  - exists []. reflexivity.
  - cbn [lag_loop row_entries flat_map].
    destruct (lag_row line) as [[entry|e]|].
    + destruct (IH (acc ++ [entry])%list) as [rest Hrest].
      exists rest. rewrite <- Hrest. now rewrite <- app_assoc.
    + eexists. reflexivity.
    + apply IH.
Qed.

Lemma lag_row_entry (line : string) (entry : TopicLag) :
  lag_row line = Some (Ok entry) ->
  (7 <= List.length (PyStr.split_ws (PyStr.strip line)))%nat
  /\ topic entry = nth 1 (PyStr.split_ws (PyStr.strip line)) ""
  /\ PyStr.int (nth 5 (PyStr.split_ws (PyStr.strip line)) "") = Some (lag entry).
Proof.
  unfold lag_row.
  destruct (Nat.leb_spec 7 (List.length (PyStr.split_ws (PyStr.strip line))));
    [|discriminate].
  destruct (PyStr.int (nth 5 (PyStr.split_ws (PyStr.strip line)) "")) as [n|];
    [|discriminate].
  intros Hentry. injection Hentry as <-. now repeat split.
Qed.

(** X2: whatever the text, the result of [extract_lag_values] is an
    initial part of the entries of its lines, in their order, and every
    entry in it comes from a line after the header that has at least 7
    columns, with column 1 as the topic and the integer of column 5 as
    the lag. *)
Theorem extract_lag_values_sound (text : string) :
  (exists rest,
      row_entries (lag_lines text) = (extract_lag_values text ++ rest)%list)
  /\ (forall entry,
         In entry (extract_lag_values text) ->
         exists line,
           In line (lag_lines text)
           /\ (7 <= List.length (PyStr.split_ws (PyStr.strip line)))%nat
           /\ topic entry = nth 1 (PyStr.split_ws (PyStr.strip line)) ""
           /\ PyStr.int (nth 5 (PyStr.split_ws (PyStr.strip line)) "")
              = Some (lag entry)).
Proof.
  destruct (lag_loop_prefix (lag_lines text) []) as [rest Hrest].
  rewrite <- extract_lag_values_snd in Hrest. simpl in Hrest.
  split; [now exists rest|].
  intros entry Hin.
  assert (Hall : In entry (row_entries (lag_lines text))).
  { rewrite Hrest. apply in_or_app. now left. }
  apply in_row_entries in Hall as [line [Hline Hrow]].
  exists line. split; [assumption|]. now apply lag_row_entry.
Qed.

Lemma lag_loop_skip (pre : list string) (short : string) (post : list string) :
  lag_row short = None ->
  forall lag_values,
    lag_loop (pre ++ short :: post)%list lag_values
    = lag_loop (pre ++ post)%list lag_values.
Proof.
  intros Hshort. induction pre as [|line pre IH]; intros acc; simpl.
  - now rewrite Hshort.
  - destruct (lag_row line) as [[entry|e]|]; [apply IH|reflexivity|apply IH].
Qed.

(** X3: a line with fewer than 7 columns is passed over without a trace:
    two tables that differ only by such a line give the same result. *)
Theorem extract_lag_values_ignores_short_line
        (text text' : string) (pre : list string) (short : string) (post : list string) :
  lag_lines text = (pre ++ short :: post)%list ->
  lag_lines text' = (pre ++ post)%list ->
  (List.length (PyStr.split_ws (PyStr.strip short)) < 7)%nat ->
  extract_lag_values text = extract_lag_values text'.
Proof.
  intros Htext Htext' Hshort.
  rewrite !extract_lag_values_snd, Htext, Htext'.
  rewrite lag_loop_skip; [reflexivity|].
  unfold lag_row.
  destruct (Nat.leb_spec 7 (List.length (PyStr.split_ws (PyStr.strip short))));
    [lia|reflexivity].
Qed.

Lemma extract_lag_values_ignores_short_line_witness :
  extract_lag_values
    ("GROUP TOPIC" ++ PyStr.CR ++ "g1 topicA 0 10 12 2 c1" ++ PyStr.CR
       ++ "Warning: partial" ++ PyStr.CR ++ "g1 topicC 1 10 17 7 c2")
  = extract_lag_values
      ("GROUP TOPIC" ++ PyStr.CR ++ "g1 topicA 0 10 12 2 c1" ++ PyStr.CR
         ++ "g1 topicC 1 10 17 7 c2").
Proof.
  apply (extract_lag_values_ignores_short_line _ _
           ["g1 topicA 0 10 12 2 c1"] "Warning: partial" ["g1 topicC 1 10 17 7 c2"]).
  - reflexivity.
  - reflexivity.
  - simpl. lia.
Defined.

Lemma find_from_found (sub : string) :
  forall (s : string) (i : Z),
    0 <= i ->
    PyStr.find_from sub s i <> -1 ->
    i <= PyStr.find_from sub s i
    /\ prefix sub (PyStr.drop (Z.to_nat (PyStr.find_from sub s i - i)) s) = true.
Proof.
  induction s as [|c s IH]; intros i Hi Hfound.
  - cbn [PyStr.find_from] in *.
    destruct (prefix sub "") eqn:Hprefix; [|now contradiction Hfound].
    rewrite Z.sub_diag. split; [lia|exact Hprefix].
  - cbn [PyStr.find_from] in *.
    destruct (prefix sub (String c s)) eqn:Hprefix.
    + rewrite Z.sub_diag. split; [lia|exact Hprefix].
    + destruct (IH (i + 1) ltac:(lia) Hfound) as [Hle Hdrop].
      split; [lia|].
      replace (Z.to_nat (PyStr.find_from sub s (i + 1) - i))
        with (S (Z.to_nat (PyStr.find_from sub s (i + 1) - (i + 1)))) by lia.
      exact Hdrop.
Qed.

Lemma find_from_prefix (sub s : string) (i : Z) :
  prefix sub s = true -> PyStr.find_from sub s i = i.
Proof. intros H. destruct s; cbn [PyStr.find_from]; now rewrite H. Qed.

Lemma drop_suffix (n : nat) :
  forall s, exists before, s = before ++ PyStr.drop n s.
Proof.
  induction n as [|n IH]; intros s.
  - now exists "".
  - destruct s as [|c s]; [now exists ""|].
    destruct (IH s) as [before Hbefore].
    exists (String c before). simpl. now rewrite <- Hbefore.
Qed.

Lemma drop_append (before s : string) :
  PyStr.drop (String.length before) (before ++ s) = s.
Proof. induction before as [|c before IH]; [reflexivity|exact IH]. Qed.

(** X4: [clean_up_response] cuts a text down to a final part of itself:
    the whole text when it has no [GROUP], otherwise a part that begins
    with [GROUP].  Cleaning a cleaned text changes nothing. *)
Theorem clean_up_response_idempotent (response : string) :
  (exists before, response = before ++ clean_up_response response)
  /\ (PyStr.find response "GROUP" = -1 -> clean_up_response response = response)
  /\ (PyStr.find response "GROUP" <> -1 ->
      prefix "GROUP" (clean_up_response response) = true)
  /\ clean_up_response (clean_up_response response) = clean_up_response response.
Proof.
  assert (Hfound : PyStr.find response "GROUP" <> -1 ->
                   clean_up_response response
                   = PyStr.drop (Z.to_nat (PyStr.find response "GROUP")) response
                   /\ prefix "GROUP" (clean_up_response response) = true).
  { intros Hne. unfold clean_up_response, PyStr.slice_from.
    destruct (Z.eqb_spec (PyStr.find response "GROUP") (-1)) as [Heq|_];
      [now contradiction Hne|].
    cbn [negb]. unfold PyStr.find in *.
    destruct (find_from_found "GROUP" response 0 ltac:(lia) Hne) as [Hle Hdrop].
    destruct (Z.ltb_spec (PyStr.find_from "GROUP" response 0) 0) as [Hneg|_]; [lia|].
    rewrite Z.sub_0_r in Hdrop. now split. }
  assert (Hmissing : PyStr.find response "GROUP" = -1 ->
                     clean_up_response response = response).
  { intros Heq. unfold clean_up_response. now rewrite Heq. }
  split; [|split; [exact Hmissing|split; [apply Hfound|]]].
  - destruct (Z.eq_dec (PyStr.find response "GROUP") (-1)) as [Heq|Hne].
    + exists "". now rewrite Hmissing.
    + destruct (Hfound Hne) as [-> _]. apply drop_suffix.
  - destruct (Z.eq_dec (PyStr.find response "GROUP") (-1)) as [Heq|Hne].
    + now rewrite !Hmissing by (rewrite ?Hmissing; assumption).
    + destruct (Hfound Hne) as [_ Hprefix].
      unfold clean_up_response at 1. unfold PyStr.find.
      rewrite (find_from_prefix _ _ 0 Hprefix). reflexivity.
Qed.

(** X5: what precedes the first [GROUP] of a text has no part in the
    result: the lag table of the whole text is that of the text from
    [GROUP] on. *)
Theorem extractLagTable_drops_preamble (preamble table : string) :
  PyStr.find (preamble ++ table) "GROUP" = Z.of_nat (String.length preamble) ->
  clean_up_response (preamble ++ table) = table
  /\ extractLagTable (preamble ++ table) = extract_lag_values table.
Proof.
  intros Hfind.
  assert (Hclean : clean_up_response (preamble ++ table) = table).
  { unfold clean_up_response, PyStr.slice_from. rewrite Hfind.
    destruct (Z.eqb_spec (Z.of_nat (String.length preamble)) (-1)) as [Heq|_]; [lia|].
    destruct (Z.ltb_spec (Z.of_nat (String.length preamble)) 0) as [Hneg|_]; [lia|].
    cbn [negb]. rewrite Nat2Z.id. apply drop_append. }
  split; [exact Hclean|].
  unfold extractLagTable. now rewrite Hclean.
Qed.

Lemma extractLagTable_drops_preamble_witness :
  clean_up_response
    (("Note: this will not show information about old consumers." ++ PyStr.LF) ++ lag_dash)
  = lag_dash
  /\ extractLagTable
       (("Note: this will not show information about old consumers." ++ PyStr.LF)
          ++ lag_dash)
     = extract_lag_values lag_dash.
Proof.
  apply (extractLagTable_drops_preamble
           ("Note: this will not show information about old consumers." ++ PyStr.LF)
           lag_dash).
  reflexivity.
Defined.

(** * Further properties of the job client *)

(** ** How many requests and how much sleep *)

Lemma requests_app (a b : list event) :
  requests (a ++ b) = (requests a + requests b)%nat.
Proof.
  induction a as [|[]]; simpl; try rewrite IHa; reflexivity.
Qed.

Lemma slept_app (a b : list event) : slept (a ++ b) = slept a + slept b.
Proof.
  induction a as [|[]]; simpl; try rewrite IHa; lia.
Qed.

Lemma costs_weaken {A} (m : M A) (n n' : nat) (s s' : Z) :
  costs m n s -> (n <= n')%nat -> s <= s' -> costs m n' s'.
Proof.
  intros Hm Hn Hs rt w. destruct (Hm rt w) as [events [Htrace [Hreq Hslept]]].
  exists events. repeat split; try assumption; lia.
Qed.

Lemma costs_silent {A} (m : M A) :
  (forall rt w, snd (m rt w) = w) -> costs m 0 0.
Proof.
  intros Hm rt w. exists []. rewrite Hm, app_nil_r. simpl. repeat split; lia.
Qed.

Lemma costs_ret {A} (a : A) : costs (ret a) 0 0.
Proof. now apply costs_silent. Qed.

Lemma costs_raise {A} (e : exn) : costs (@raise A e) 0 0.
Proof. now apply costs_silent. Qed.

Lemma costs_lift {A} (r : result A) : costs (lift r) 0 0.
Proof. now apply costs_silent. Qed.

Lemma costs_validated {A} (model field : string) (o : option A) :
  costs (validated model field o) 0 0.
Proof. apply costs_silent. now destruct o. Qed.

Lemma costs_str_of_exn (e : exn) : costs (str_of_exn e) 0 0.
Proof. now apply costs_silent. Qed.

Lemma costs_str_of_status (r : JobStatusResponse) : costs (str_of_status r) 0 0.
Proof. now apply costs_silent. Qed.

Lemma costs_request (e : event) (reply : Runtime -> World -> Z) :
  requests [e] = 1%nat ->
  forall {A} (m : M A),
    (forall rt w, snd (m rt w) = after w e (reply rt w)) -> costs m 1 0.
Proof.
  intros He A m Hm rt w. exists [e]. rewrite Hm. cbn [after trace].
  split; [reflexivity|]. split; [lia|].
  destruct e; simpl in *; lia.
Qed.

Lemma costs_post (endpoint : string) : costs (post_wrapper_full_response endpoint) 1 0.
Proof.
  apply (costs_request (Post endpoint)
           (fun rt w => fst (post_full_reply rt (trace w) endpoint)) eq_refl).
  intros rt w. unfold post_wrapper_full_response.
  now destruct (post_full_reply rt (trace w) endpoint).
Qed.

Lemma costs_get_full (url : string) : costs (get_wrapper_full_response url) 1 0.
Proof.
  apply (costs_request (GetFull url)
           (fun rt w => fst (get_full_reply rt (trace w) url)) eq_refl).
  intros rt w. unfold get_wrapper_full_response.
  now destruct (get_full_reply rt (trace w) url).
Qed.

Lemma costs_get (endpoint : string) : costs (get_wrapper endpoint) 1 0.
Proof.
  apply (costs_request (Get endpoint)
           (fun rt w => fst (get_reply rt (trace w) endpoint)) eq_refl).
  intros rt w. unfold get_wrapper.
  now destruct (get_reply rt (trace w) endpoint).
Qed.

Lemma costs_sleep (seconds : Z) : 0 <= seconds -> costs (time_sleep seconds) 0 seconds.
Proof.
  intros Hs rt w. exists [Sleep seconds]. cbn. repeat split; lia.
Qed.

Lemma costs_bind {A B} (m : M A) (k : A -> M B) (n1 n2 : nat) (s1 s2 : Z) :
  costs m n1 s1 -> (forall a, costs (k a) n2 s2) -> 0 <= s2 ->
  costs (bind m k) (n1 + n2) (s1 + s2).
Proof.
  intros Hm Hk Hs2 rt w. unfold bind.
  destruct (Hm rt w) as [events1 [Htrace1 [Hreq1 Hslept1]]].
  destruct (m rt w) as [[a|e] w1]; cbn [snd] in *.
  - destruct (Hk a rt w1) as [events2 [Htrace2 [Hreq2 Hslept2]]].
    exists (events1 ++ events2)%list.
    rewrite Htrace2, Htrace1, app_assoc, requests_app, slept_app.
    repeat split; lia.
  - exists events1. repeat split; try assumption; lia.
Qed.

Lemma costs_try_except {A} (m : M A) (handler : exn -> M A)
      (n1 n2 : nat) (s1 s2 : Z) :
  costs m n1 s1 -> (forall e, costs (handler e) n2 s2) -> 0 <= s2 ->
  costs (try_except m handler) (n1 + n2) (s1 + s2).
Proof.
  intros Hm Hh Hs2 rt w. unfold try_except.
  destruct (Hm rt w) as [events1 [Htrace1 [Hreq1 Hslept1]]].
  destruct (m rt w) as [[a|e] w1]; cbn [snd] in *.
  - exists events1. repeat split; try assumption; lia.
  - destruct (Hh e rt w1) as [events2 [Htrace2 [Hreq2 Hslept2]]].
    exists (events1 ++ events2)%list.
    rewrite Htrace2, Htrace1, app_assoc, requests_app, slept_app.
    repeat split; lia.
Qed.

Lemma costs_if {A} (b : bool) (m1 m2 : M A) (n1 n2 : nat) (s1 s2 : Z) :
  costs m1 n1 s1 -> costs m2 n2 s2 ->
  costs (if b then m1 else m2) (Nat.max n1 n2) (Z.max s1 s2).
Proof.
  intros H1 H2. destruct b;
    [apply (costs_weaken _ _ _ _ _ H1)|apply (costs_weaken _ _ _ _ _ H2)]; lia.
Qed.

Lemma costs_stage {A R} (body : M A) (handler : exn -> M R)
      (n1 n2 : nat) (s1 s2 : Z) :
  costs body n1 s1 -> (forall e, costs (handler e) n2 s2) -> 0 <= s2 ->
  costs (stage body handler) (n1 + n2) (s1 + s2).
Proof.
  intros Hbody Hhandler Hs2. unfold stage.
  apply (costs_weaken _ (n1 + 0 + (n2 + 0)) _ (s1 + 0 + (s2 + 0))); [|lia|lia].
  apply costs_try_except; [| |lia].
  - apply costs_bind; [assumption|intros; apply costs_ret|lia].
  - intros e. apply costs_bind; [apply Hhandler|intros; apply costs_ret|lia].
Qed.

Lemma costs_or_return {A R} (s : M (A + R)) (k : A -> M R)
      (n1 n2 : nat) (s1 s2 : Z) :
  costs s n1 s1 -> (forall a, costs (k a) n2 s2) -> 0 <= s2 ->
  costs (or_return s k) (n1 + n2) (s1 + s2).
Proof.
  intros Hs Hk Hs2. unfold or_return.
  apply costs_bind; [assumption| |assumption].
  intros [a|r]; [apply Hk|].
  apply (costs_weaken _ 0 _ 0); [apply costs_ret|lia|lia].
Qed.

Lemma costs_option {A B} (o : option A) (none : M B) (some : A -> M B)
      (n1 n2 : nat) (s1 s2 : Z) :
  costs none n1 s1 -> (forall a, costs (some a) n2 s2) ->
  costs (match o with Some a => some a | None => none end)
        (Nat.max n1 n2) (Z.max s1 s2).
Proof.
  intros H1 H2. destruct o as [a|];
    [apply (costs_weaken _ _ _ _ _ (H2 a))|apply (costs_weaken _ _ _ _ _ H1)]; lia.
Qed.

(** Builds a bound for a computation from the bounds of its parts and
    from the bounds at hand in the context. *)
Ltac cost :=
  first
    [ eassumption
    | match goal with H : _ |- _ => apply H end
    | apply costs_ret | apply costs_raise | apply costs_lift
    | apply costs_validated | apply costs_str_of_exn | apply costs_str_of_status
    | apply costs_post | apply costs_get_full | apply costs_get
    | apply costs_sleep; lia
    | eapply costs_bind; [cost|intros; cost|lia]
    | eapply costs_try_except; [cost|intros; cost|lia]
    | eapply costs_stage; [cost|intros; cost|lia]
    | eapply costs_or_return; [cost|intros; cost|lia]
    | eapply costs_if; [cost|cost]
    | eapply costs_option; [cost|intros; cost] ].

Lemma costs_queue_loop (queue_location : string) (n : nat) :
  costs (queue_loop n queue_location) n (2 * Z.of_nat n).
Proof.
  induction n as [|n IH].
  - apply costs_ret.
  - cbn [queue_loop].
    eapply costs_weaken; [cost|lia|lia].
Qed.

Lemma costs_get_latest_build_number (job_name : string) :
  costs (get_latest_build_number job_name) 1 0.
Proof.
  unfold get_latest_build_number.
  eapply costs_weaken; [cost|lia|lia].
Qed.

Lemma costs_latest_build_loop (job_name : string) (n : nat) :
  forall build_number,
    costs (latest_build_loop n job_name build_number) n (10 * Z.of_nat n).
Proof.
  induction n as [|n IH]; intros build_number.
  - apply costs_ret.
  - cbn [latest_build_loop].
    pose proof costs_get_latest_build_number.
    eapply costs_weaken; [cost|lia|lia].
Qed.

Lemma costs_trigger_job (request : TriggerJobRequest) :
  costs (trigger_job request) 16 70.
Proof.
  pose proof costs_queue_loop as Hqueue.
  pose proof costs_latest_build_loop as Hlatest.
  unfold trigger_job, get_build_number_from_queue, new_TriggerJobResponse.
  eapply costs_weaken; [cost|simpl; lia|simpl; lia].
Qed.

Lemma costs_get_job_status (request : JobStatusRequest) :
  costs (get_job_status request) 1 0.
Proof.
  unfold get_job_status, new_JobStatusResponse.
  eapply costs_weaken; [cost|lia|lia].
Qed.

Lemma costs_console_logs (params : BuildParams) (job_status : JobStatusResponse) :
  costs (request <- new_BuildConsoleLogsRequest
                      (bp_job_name params) (bp_build_number params) ;;
         build_logs <- get_build_console_logs request ;;
         new_JobStatusResponse (VStr (status job_status)) (message job_status)
           (Some (console_logs build_logs))) 1 0.
Proof.
  unfold new_BuildConsoleLogsRequest, get_build_console_logs,
    new_BuildConsoleLogsResponse, new_JobStatusResponse.
  eapply costs_weaken; [cost|lia|lia].
Qed.

Lemma wait_loop_costs (fuel : nat) :
  forall (params : BuildParams) (start_time retries : Z) (rt : Runtime) (w : World)
         out w',
    0 <= retries <= max_retries ->
    wait_loop fuel params start_time retries rt w = Some (out, w') ->
    exists events,
      trace w' = (trace w ++ events)%list
      /\ (requests events <= Z.to_nat (max_retries - retries) + 1)%nat
      /\ 0 <= slept events <= retry_delay * (max_retries - retries).
Proof.
  unfold max_retries, retry_delay.
  induction fuel as [|fuel IH];
    intros params start_time retries rt w out w' Hretries Hrun.
  - discriminate Hrun.
  - cbn [wait_loop] in Hrun.
    destruct (now w - start_time >? timeout * ticks_per_second).
    { injection Hrun as _ <-. exists []. rewrite app_nil_r.
      cbn [requests slept]. repeat split; lia. }
    rewrite Z.geb_leb in Hrun. unfold max_retries in Hrun.
    destruct (Z.leb_spec 10 retries) as [Hmax|Hmore].
    { injection Hrun as _ <-. exists []. rewrite app_nil_r.
      cbn [requests slept]. repeat split; lia. }
    destruct (get_job_status_total
                {| js_job_name := bp_job_name params;
                   js_build_number := Some (bp_build_number params) |} rt w)
      as [job_status [Hstatus _]].
    rewrite Hstatus in Hrun.
    destruct (terminal (VStr (status job_status))).
    + destruct (costs_console_logs params job_status rt
                  (after w (Get (status_endpoint
                                   {| js_job_name := bp_job_name params;
                                      js_build_number := Some (bp_build_number params) |}))
                         (fst (get_reply rt (trace w)
                                 (status_endpoint
                                    {| js_job_name := bp_job_name params;
                                       js_build_number :=
                                         Some (bp_build_number params) |})))))
        as [events [Htrace [Hreq Hslept]]].
      injection Hrun as Hrun. rewrite Hrun in Htrace. cbn [snd after trace] in Htrace.
      eexists. rewrite Htrace, <- app_assoc. split; [reflexivity|].
      rewrite requests_app, slept_app. cbn [requests slept]. split; lia.
    + apply IH in Hrun as [events [Htrace [Hreq Hslept]]]; [|lia].
      cbn [snd time_sleep after trace] in Htrace.
      eexists. rewrite Htrace, <- !app_assoc. split; [reflexivity|].
      rewrite !requests_app, !slept_app. cbn [requests slept].
      unfold retry_delay. split; lia.
Qed.

Lemma costs_wait_for_job_completion (params : BuildParams) :
  costs (wait_for_job_completion params) 11 50.
Proof.
  intros rt w.
  pose proof (wait_loop_fuel 11 params rt w (le_n 11)) as Hrun.
  destruct (wait_for_job_completion params rt w) as [out w'].
  apply wait_loop_costs in Hrun as [events [Htrace [Hreq Hslept]]];
    [|unfold max_retries; lia].
  exists events. unfold max_retries, retry_delay in *. simpl in Hreq.
  cbn [snd]. repeat split; try assumption; lia.
Qed.

(** X6: whatever the CI service does, [trigger_job] makes at most 16
    requests (the trigger, 10 polls of the queue item, 5 queries of the
    build list) and sleeps at most 70 seconds in all (10 times 2 seconds,
    5 times 10 seconds). *)
Theorem trigger_job_bounded (request : TriggerJobRequest) (rt : Runtime) (w : World) :
  exists events,
    trace (snd (trigger_job request rt w)) = (trace w ++ events)%list
    /\ (requests events <= 16)%nat
    /\ 0 <= slept events <= 70.
Proof. apply costs_trigger_job. Qed.

(** X7: whatever the CI service does, [wait_for_job_completion] makes at
    most 11 requests (10 status calls and the fetch of the console log)
    and sleeps at most 50 seconds in all. *)
Theorem wait_for_job_completion_bounded (params : BuildParams) (rt : Runtime) (w : World) :
  exists events,
    trace (snd (wait_for_job_completion params rt w)) = (trace w ++ events)%list
    /\ (requests events <= 11)%nat
    /\ 0 <= slept events <= 50.
Proof. apply costs_wait_for_job_completion. Qed.

(** ** What [trigger_job] answers *)

(** X8: when the trigger is not accepted (the POST raises, is not
    answered with status 201, or carries no [Location] header),
    [trigger_job] reports a failure that names the cause, with no build
    number, and has made that one request only. *)
Theorem trigger_job_rejected
        (request : TriggerJobRequest) (rt : Runtime) (w : World)
        (d : Z) (reply : result response) :
  post_full_reply rt (trace w) (trigger_endpoint request) = (d, reply) ->
  match reply with
  | Ok posted => status_code posted <> 201 \/ Location posted = None
  | Raise _ => True
  end ->
  trigger_job request rt w
  = (Ok {| Jobs.success := false;
           tj_message :=
             match reply with
             | Raise e => str_exn rt e
             | Ok posted =>
                 if status_code posted =? 201
                 then "Queue location not found in response headers."
                 else "Unexpected response status code: "
                        ++ PyStr.of_Z (status_code posted)
             end;
           build_number := None |},
     after w (Post (trigger_endpoint request)) d).
Proof.
  intros Hpost Hreply.
  unfold trigger_job, try_except. unfold bind at 1.
  unfold post_wrapper_full_response. rewrite Hpost.
  destruct reply as [posted|e]; [|reflexivity].
  destruct (Z.eqb_spec (status_code posted) 201) as [Hcode|Hcode]; cbn [negb].
  - destruct Hreply as [Hne|Hnone]; [now contradiction Hne|].
    rewrite Hnone. reflexivity.
  - reflexivity.
Qed.

Lemma trigger_job_rejected_witness :
  trigger_job {| tj_job_name := "kafka_list_topics"; parameters := Some "?regex=." |}
              ci_rejects start
  = (Ok {| Jobs.success := false;
           tj_message := "Unexpected response status code: " ++ PyStr.of_Z 500;
           build_number := None |},
     after start (Post "/job/kafka_list_topics/buildWithParameters?regex=.") 0).
Proof.
  apply (trigger_job_rejected
           {| tj_job_name := "kafka_list_topics"; parameters := Some "?regex=." |}
           ci_rejects start 0
           (Ok {| status_code := 500; Location := None; json := no_body |})).
  - reflexivity.
  - left. discriminate.
Defined.

(** X9: when the trigger is accepted and the first poll of the queue item
    already names the build, [trigger_job] reports success with that
    build number as a string, after the trigger and that one poll, with
    no sleep. *)
Theorem trigger_job_resolved_at_first_poll
        (request : TriggerJobRequest) (rt : Runtime) (w : World)
        (d1 d2 : Z) (posted queue_response : response) (queue_location : string)
        (fields executable : list (string * value)) (number : Z) :
  post_full_reply rt (trace w) (trigger_endpoint request) = (d1, Ok posted) ->
  status_code posted = 201 ->
  Location posted = Some queue_location ->
  get_full_reply rt (trace w ++ [Post (trigger_endpoint request)])%list queue_location
  = (d2, Ok queue_response) ->
  status_code queue_response = 200 ->
  json queue_response = Ok (VDict fields) ->
  lookup "executable" fields = Some (VDict executable) ->
  lookup "number" executable = Some (VInt number) ->
  trigger_job request rt w
  = (Ok {| Jobs.success := true;
           tj_message := "Job triggered successfully.";
           build_number := Some (PyStr.of_Z number) |},
     after (after w (Post (trigger_endpoint request)) d1) (GetFull queue_location) d2).
Proof.
  intros Hpost Hcode Hlocation Hqueue Hqcode Hjson Hexecutable Hnumber.
  unfold trigger_job, try_except. unfold bind at 1.
  unfold post_wrapper_full_response. rewrite Hpost, Hcode, Hlocation.
  cbn [negb Z.eqb Pos.eqb].
  unfold bind at 1. unfold get_build_number_from_queue. cbn [queue_loop].
  unfold bind at 1. unfold get_wrapper_full_response. cbn [after trace].
  rewrite Hqueue, Hqcode. cbn [Z.eqb Pos.eqb].
  unfold bind, lift. rewrite Hjson. cbn [contains subscript].
  rewrite Hexecutable. cbn [subscript]. rewrite Hnumber.
  reflexivity.
Qed.

Lemma trigger_job_resolved_at_first_poll_witness :
  trigger_job {| tj_job_name := "kafka_list_topics"; parameters := Some "?regex=." |}
              (ci_succeeds two_names) start
  = (Ok {| Jobs.success := true;
           tj_message := "Job triggered successfully.";
           build_number := Some (PyStr.of_Z 12) |},
     after (after start (Post "/job/kafka_list_topics/buildWithParameters?regex=.") 0)
           (GetFull queue_item) 0).
Proof.
  apply (trigger_job_resolved_at_first_poll
           {| tj_job_name := "kafka_list_topics"; parameters := Some "?regex=." |}
           (ci_succeeds two_names) start 0 0
           {| status_code := 201; Location := Some queue_item; json := no_body |}
           {| status_code := 200; Location := None;
              json := Ok (VDict [("executable", VDict [("number", VInt 12)])]) |}
           queue_item
           [("executable", VDict [("number", VInt 12)])]
           [("number", VInt 12)] 12); reflexivity.
Defined.

(** X10: [get_latest_build_number] answers with the number of the first
    entry of the job's build list.  A job description without a build
    list, or with an empty one, gives [None] and no error.  The status
    code of the reply plays no part. *)
Theorem get_latest_build_number_first_build
        (job_name : string) (rt : Runtime) (w : World)
        (d : Z) (job_response : response) (fields : list (string * value)) :
  get_full_reply rt (trace w) ("/job/" ++ job_name ++ "/api/json") = (d, Ok job_response) ->
  json job_response = Ok (VDict fields) ->
  (lookup "builds" fields = None \/ lookup "builds" fields = Some (VList []) ->
   fst (get_latest_build_number job_name rt w) = Ok VNone)
  /\ (forall first rest number,
         lookup "builds" fields = Some (VList (VDict first :: rest)) ->
         lookup "number" first = Some number ->
         fst (get_latest_build_number job_name rt w) = Ok number).
Proof.
  intros Hreply Hjson.
  unfold get_latest_build_number, bind, get_wrapper_full_response, lift.
  rewrite Hreply, Hjson. cbn [contains subscript]. split.
  - intros [Hnone|Hempty]; [rewrite Hnone|rewrite Hempty]; reflexivity.
  - intros first rest number Hbuilds Hnumber.
    rewrite Hbuilds. cbn [truthy subscript0 subscript]. now rewrite Hnumber.
Qed.

Lemma get_latest_build_number_first_build_witness :
  fst (get_latest_build_number "kafka_list_topics" ci_builds start) = Ok (VInt 42).
Proof.
  refine (proj2 (get_latest_build_number_first_build "kafka_list_topics" ci_builds start 0
                   {| status_code := 200; Location := None; json := Ok two_builds |}
                   [("name", VStr "kafka_list_topics");
                    ("builds", VList [VDict [("number", VInt 42)];
                                      VDict [("number", VInt 41)]])]
                   eq_refl eq_refl)
                [("number", VInt 42)] [VDict [("number", VInt 41)]] (VInt 42)
                eq_refl eq_refl).
Defined.

(** ** What [get_job_status] and [wait_for_job_completion] answer *)

(** X11: when the status reply has no readable result (the body is not
    an object, has no [result] key, or its result is [null], a list or
    an object), [get_job_status] still returns: the status is the empty
    string and the message is the text of the exception met. *)
Theorem get_job_status_unreadable_result
        (request : JobStatusRequest) (rt : Runtime) (w : World) (response : value) :
  snd (get_reply rt (trace w) (status_endpoint request)) = Ok response ->
  match subscript response "result" with
  | Ok result => str_validator result = None
  | Raise _ => True
  end ->
  fst (get_job_status request rt w)
  = Ok {| status := "";
          message :=
            str_exn rt
              match subscript response "result" with
              | Ok _ => ValidationError "JobStatusResponse" "status"
              | Raise e => e
              end;
          build_logs := None |}.
Proof.
  intros Hreply Hresult.
  unfold get_job_status, try_except, bind, get_wrapper, lift, str_of_exn,
    new_JobStatusResponse, validated, ret, raise.
  destruct (get_reply rt (trace w) (status_endpoint request)) as [d reply].
  simpl in Hreply. subst reply.
  destruct (subscript response "result") as [result|e]; [|reflexivity].
  rewrite Hresult. reflexivity.
Qed.

Lemma get_job_status_unreadable_result_witness :
  fst (get_job_status {| js_job_name := "kafka_list_topics"; js_build_number := Some "12" |}
                      ci_running start)
  = Ok {| status := "";
          message := str_exn ci_running (ValidationError "JobStatusResponse" "status");
          build_logs := None |}.
Proof.
  apply (get_job_status_unreadable_result
           {| js_job_name := "kafka_list_topics"; js_build_number := Some "12" |}
           ci_running start (VDict [("result", VNone)])); reflexivity.
Defined.

Lemma terminal_iff (s : string) :
  terminal (VStr s) = true <-> s = "SUCCESS" \/ s = "FAILURE".
Proof.
  unfold terminal, eq_str, is_str. rewrite orb_true_iff, !String.eqb_eq. tauto.
Qed.

(** A terminal status comes with the message that names it. *)
Lemma get_job_status_terminal (request : JobStatusRequest) (rt : Runtime) (w : World)
      (r : JobStatusResponse) (w' : World) :
  get_job_status request rt w = (Ok r, w') ->
  terminal (VStr (status r)) = true ->
  message r = "Job status: " ++ status r.
Proof.
  unfold get_job_status, try_except, bind, get_wrapper, lift, str_of_exn,
    new_JobStatusResponse, validated, ret, raise.
  destruct (get_reply rt (trace w) (status_endpoint request)) as [d [response|e]];
    cbn [fst snd].
  - destruct (subscript response "result") as [v|e].
    + destruct (str_validator v) as [s|] eqn:Hv.
      * intros H. injection H as <- _. cbn [status message]. intros Hterminal.
        destruct (terminal v) eqn:Hvalue.
        -- destruct v as [|b|n|s'|items|fields]; try discriminate Hvalue.
           simpl in Hv. injection Hv as <-. reflexivity.
        -- rewrite (str_validator_terminal v s Hv Hvalue) in Hterminal.
           discriminate Hterminal.
      * cbn. intros H. injection H as <- _. discriminate.
    + cbn. intros H. injection H as <- _. discriminate.
  - cbn. intros H. injection H as <- _. discriminate.
Qed.

Lemma wait_loop_answer (fuel : nat) :
  forall (params : BuildParams) (start_time retries : Z) (rt : Runtime) (w : World)
         (r : JobStatusResponse) (w' : World),
    wait_loop fuel params start_time retries rt w = Some (Ok r, w') ->
    (status r = "" /\ build_logs r = None
     /\ (message r = timeout_message \/ message r = retries_message))
    \/ ((status r = "SUCCESS" \/ status r = "FAILURE")
        /\ message r = "Job status: " ++ status r
        /\ build_logs r <> None).
Proof.
  induction fuel as [|fuel IH]; intros params start_time retries rt w r w' Hrun.
  - discriminate Hrun.
  - cbn [wait_loop] in Hrun.
    destruct (now w - start_time >? timeout * ticks_per_second).
    { injection Hrun as <- _. left. cbn. auto. }
    destruct (retries >=? max_retries).
    { injection Hrun as <- _. left. cbn. auto. }
    destruct (get_job_status _ rt w) as [[job_status|e] w1] eqn:Hstatus;
      [|discriminate Hrun].
    destruct (terminal (VStr (status job_status))) eqn:Hterminal.
    + right. injection Hrun as Hrun. revert Hrun.
      unfold new_BuildConsoleLogsRequest, get_build_console_logs,
        new_BuildConsoleLogsResponse, new_JobStatusResponse.
      unfold bind, validated, ret, raise.
      destruct (int_validator (bp_build_number params)) as [n|]; [|discriminate].
      cbv beta iota.
      match goal with
      | |- context [get_wrapper ?endpoint rt w1] =>
          destruct (get_wrapper endpoint rt w1) as [[logs|e] w2]; [|discriminate]
      end.
      destruct (str_validator logs) as [text|]; [|discriminate].
      cbn [str_validator]. intros H. injection H as <- _. cbn.
      split; [now apply terminal_iff|].
      split; [now apply (get_job_status_terminal _ _ _ _ _ Hstatus)|discriminate].
    + now apply IH in Hrun.
Qed.

(** X12: an answer of [wait_for_job_completion] is of one of two kinds.
    Either the wait was given up: the status is the empty string, there
    are no build logs and the message is the timeout or the retries
    message.  Or the job ended: the status is [SUCCESS] or [FAILURE], the
    message names it and the build logs are attached. *)
Theorem wait_for_job_completion_answer
        (params : BuildParams) (rt : Runtime) (w : World)
        (r : JobStatusResponse) (w' : World) :
  wait_for_job_completion params rt w = (Ok r, w') ->
  (status r = "" /\ build_logs r = None
   /\ (message r = timeout_message \/ message r = retries_message))
  \/ ((status r = "SUCCESS" \/ status r = "FAILURE")
      /\ message r = "Job status: " ++ status r
      /\ build_logs r <> None).
Proof.
  intros Hrun.
  pose proof (wait_loop_fuel 11 params rt w (le_n 11)) as Hfuel.
  rewrite Hrun in Hfuel. now apply wait_loop_answer in Hfuel.
Qed.

Lemma wait_for_job_completion_answer_witness :
  wait_for_job_completion {| bp_job_name := "kafka_list_topics"; bp_build_number := "12" |}
                          (ci_succeeds two_names) start
  = (Ok {| status := "SUCCESS"; message := "Job status: SUCCESS";
           build_logs := Some "Finished: SUCCESS" |},
     {| trace := [Get "/job/kafka_list_topics/12/api/json?tree=result";
                  Get "/job/kafka_list_topics/12/consoleText"];
        now := 0 |})
  /\ (("SUCCESS" = "" /\ Some "Finished: SUCCESS" = None
       /\ ("Job status: SUCCESS" = timeout_message
           \/ "Job status: SUCCESS" = retries_message))
      \/ (("SUCCESS" = "SUCCESS" \/ "SUCCESS" = "FAILURE")
          /\ "Job status: SUCCESS" = "Job status: " ++ "SUCCESS"
          /\ Some "Finished: SUCCESS" <> None)).
Proof.
  split; [reflexivity|].
  exact (wait_for_job_completion_answer
           {| bp_job_name := "kafka_list_topics"; bp_build_number := "12" |}
           (ci_succeeds two_names) start
           {| status := "SUCCESS"; message := "Job status: SUCCESS";
              build_logs := Some "Finished: SUCCESS" |}
           _ eq_refl).
Defined.

(** * Further properties of the actions *)

(** What passes the truth test of [if artifact:] and the [str] field is
    not the empty string. *)
Lemma str_validator_truthy (v : value) (s : string) :
  truthy v = true -> str_validator v = Some s -> s <> "".
Proof.
  destruct v as [|[|]|n|s'|items|fields]; simpl; intros Htrue Hs;
    try discriminate; injection Hs as <-; try discriminate.
  - destruct (of_Z_head n) as [c [rest [-> _]]]. discriminate.
  - intros ->. discriminate Htrue.
Qed.

(** X13: [describe_kafka_topic] always returns a response, whatever the
    CI service does, and a response that reports success carries a
    non-empty artifact. *)
Theorem describe_kafka_topic_response
        (request : DescribeKafkaTopicRequest) (rt : Runtime) (w : World) :
  exists r w',
    describe_kafka_topic request rt w = (Ok r, w')
    /\ (Topics.success r = true -> Topics.artifact r <> "").
Proof.
  unfold describe_kafka_topic, try_except.
  match goal with
  | |- context [match ?body rt w with pair _ _ => _ end] =>
      destruct (body rt w) as [[r0|e] w1] eqn:Hbody
  end.
  2:{ do 2 eexists. split; [reflexivity|]. cbn. discriminate. }
  exists r0, w1. split; [reflexivity|]. revert Hbody.
  unfold or_return, stage, try_except, bind, ret, raise, str_of_exn, str_of_status.
  destruct (trigger_job _ rt w) as [[job|e1] w2];
    [|cbn; intros H; injection H as <- _; discriminate].
  destruct (new_BuildParams _ _ rt w2) as [[params|e2] w3];
    [|cbn; intros H; injection H as <- _; discriminate].
  destruct (wait_for_job_completion params rt w3) as [[waited|e3] w4];
    [|cbn; intros H; injection H as <- _; discriminate].
  destruct (negb (status waited =? "SUCCESS")%string);
    [cbn; intros H; injection H as <- _; discriminate|].
  destruct (new_ArtifactRequest _ _ _ rt w4) as [[artifact_request|e4] w5];
    [|cbn; intros H; injection H as <- _; discriminate].
  destruct (get_artifact artifact_request rt w5) as [[output|e5] w6];
    [|cbn; intros H; injection H as <- _; discriminate].
  destruct (truthy output) eqn:Htruthy;
    [|cbn; intros H; injection H as <- _; discriminate].
  unfold new_DescribeKafkaTopicResponse, bind, validated, ret, raise.
  destruct (str_validator output) as [s|] eqn:Hstr; [|discriminate].
  intros H. injection H as <- _. cbn. intros _.
  now apply (str_validator_truthy output).
Qed.

(** X14: [list_kafka_topics] always returns a response, whatever the CI
    service does, and a response that reports success carries a
    non-empty text. *)
Theorem list_kafka_topics_response
        (request : ListKafkaTopicsRequest) (rt : Runtime) (w : World) :
  exists r w',
    list_kafka_topics request rt w = (Ok r, w')
    /\ (lt_success r = true -> topics r <> "").
Proof.
  unfold list_kafka_topics, try_except.
  match goal with
  | |- context [match ?body rt w with pair _ _ => _ end] =>
      destruct (body rt w) as [[r0|e] w1] eqn:Hbody
  end.
  2:{ do 2 eexists. split; [reflexivity|]. cbn. discriminate. }
  exists r0, w1. split; [reflexivity|]. revert Hbody.
  unfold or_return, stage, try_except, bind, ret, raise, str_of_exn, str_of_status.
  destruct (trigger_job _ rt w) as [[job|e1] w2];
    [|cbn; intros H; injection H as <- _; discriminate].
  destruct (new_BuildParams _ _ rt w2) as [[params|e2] w3];
    [|cbn; intros H; injection H as <- _; discriminate].
  destruct (wait_for_job_completion params rt w3) as [[waited|e3] w4];
    [|cbn; intros H; injection H as <- _; discriminate].
  destruct (negb (status waited =? "SUCCESS")%string);
    [cbn; intros H; injection H as <- _; discriminate|].
  destruct (new_ArtifactRequest _ _ _ rt w4) as [[artifact_request|e4] w5];
    [|cbn; intros H; injection H as <- _; discriminate].
  destruct (get_artifact artifact_request rt w5) as [[output|e5] w6];
    [|cbn; intros H; injection H as <- _; discriminate].
  destruct (truthy output) eqn:Htruthy;
    [|cbn; intros H; injection H as <- _; discriminate].
  unfold new_ListKafkaTopicsResponse, bind, validated, ret, raise.
  destruct (str_validator output) as [s|] eqn:Hstr; [|discriminate].
  intros H. injection H as <- _. cbn. intros _.
  now apply (str_validator_truthy output).
Qed.

(** X15: [describe_kafka_consumer_group] always returns a response,
    whatever the CI service does, and a response that reports success
    carries a non-empty artifact. *)
Theorem describe_kafka_consumer_group_response
        (request : DescribeKafkaConsumerGroupRequest) (rt : Runtime) (w : World) :
  exists r w',
    describe_kafka_consumer_group request rt w = (Ok r, w')
    /\ (dcg_success r = true -> dcg_artifact r <> "").
Proof.
  unfold describe_kafka_consumer_group, try_except.
  match goal with
  | |- context [match ?body rt w with pair _ _ => _ end] =>
      destruct (body rt w) as [[r0|e] w1] eqn:Hbody
  end.
  2:{ do 2 eexists. split; [reflexivity|]. cbn. discriminate. }
  exists r0, w1. split; [reflexivity|]. revert Hbody.
  unfold or_return, stage, try_except, bind, ret, raise, str_of_exn, str_of_status.
  destruct (trigger_job _ rt w) as [[job|e1] w2];
    [|cbn; intros H; injection H as <- _; discriminate].
  destruct (new_BuildParams _ _ rt w2) as [[params|e2] w3]; [|discriminate].
  destruct (wait_for_job_completion params rt w3) as [[waited|e3] w4]; [|discriminate].
  destruct (negb (status waited =? "SUCCESS")%string);
    [cbn; intros H; injection H as <- _; discriminate|].
  destruct (new_ArtifactRequest _ _ _ rt w4) as [[artifact_request|e4] w5];
    [|cbn; intros H; injection H as <- _; discriminate].
  destruct (get_artifact artifact_request rt w5) as [[output|e5] w6];
    [|cbn; intros H; injection H as <- _; discriminate].
  destruct (truthy output) eqn:Htruthy;
    [|cbn; intros H; injection H as <- _; discriminate].
  unfold new_DescribeKafkaConsumerGroupResponse, bind, validated, ret, raise.
  destruct (str_validator output) as [s|] eqn:Hstr; [|discriminate].
  intros H. injection H as <- _. cbn. intros _.
  now apply (str_validator_truthy output).
Qed.

(** X16: [list_kafka_consumer_groups] has two outcomes only: a response
    that reports success, with at least one line and not the single empty
    line, or the validation error of its own response model, raised to
    the caller.  It never returns a response that reports failure. *)
Theorem list_kafka_consumer_groups_success_or_error
        (request : ListKafkaConsumerGroupsRequest) (rt : Runtime) (w : World) :
  match fst (list_kafka_consumer_groups request rt w) with
  | Ok r =>
      ConsumerGroups.success r = true
      /\ consumer_groups r <> [] /\ consumer_groups r <> [""]
  | Raise e => e = ValidationError "ListKafkaConsumerGroupsResponse" "consumer_groups"
  end.
Proof.
  unfold list_kafka_consumer_groups, try_except.
  match goal with
  | |- context [match ?body rt w with pair _ _ => _ end] =>
      destruct (body rt w) as [[r|e] w1] eqn:Hbody
  end; [|reflexivity].
  cbn [fst]. revert Hbody.
  unfold or_return, stage, try_except, bind, ret, raise, str_of_exn, str_of_status.
  destruct (trigger_job _ rt w) as [[job|e1] w2];
    [|rewrite new_ListKafkaConsumerGroupsResponse_str; discriminate].
  destruct (new_BuildParams _ _ rt w2) as [[params|e2] w3]; [|discriminate].
  destruct (wait_for_job_completion params rt w3) as [[waited|e3] w4]; [|discriminate].
  destruct (negb (status waited =? "SUCCESS")%string);
    [rewrite new_ListKafkaConsumerGroupsResponse_str; discriminate|].
  destruct (new_ArtifactRequest _ _ _ rt w4) as [[artifact_request|e4] w5];
    [|rewrite new_ListKafkaConsumerGroupsResponse_str; discriminate].
  destruct (get_artifact artifact_request rt w5) as [[output|e5] w6];
    [|rewrite new_ListKafkaConsumerGroupsResponse_str; discriminate].
  destruct (truthy output) eqn:Htruthy;
    [|rewrite new_ListKafkaConsumerGroupsResponse_str; discriminate].
  destruct output as [|b|n|text|items|fields]; try discriminate.
  cbn [as_str]. unfold ret. rewrite new_ListKafkaConsumerGroupsResponse_lines.
  intros H. injection H as <- _. cbn.
  assert (Hne : split_kafka_output text <> []) by apply split_from_nonempty.
  assert (Hjoin : String.concat (PyStr.CR ++ PyStr.LF) (split_kafka_output text) = text).
  { assert (Hsep : PyStr.CR ++ PyStr.LF <> "") by (vm_compute; discriminate).
    unfold split_kafka_output, PyStr.split.
    rewrite (concat_split_from _ Hsep (String.length text)); [reflexivity|lia]. }
  split; [reflexivity|]. split; [exact Hne|].
  intros Hone. rewrite Hone in Hjoin. cbn in Hjoin. subst text.
  discriminate Htruthy.
Qed.

(** X17: [get_lag_of_kafka_consumer_group] always returns a response,
    whatever the CI service does.  Its [success] text either begins with
    [False: ], and then the lag list is empty, or is the success text
    for the group, and then the lag list is the lag table of the text
    just fetched as the artifact [output.txt]. *)
Theorem get_lag_of_kafka_consumer_group_response
        (request : GetLagOfKafkaConsumerGroupRequest) (rt : Runtime) (w : World) :
  exists r w',
    get_lag_of_kafka_consumer_group request rt w = (Ok r, w')
    /\ ((prefix "False: " (gl_success r) = true /\ gl_lag r = [])
        \/ (gl_success r
            = "True: Successfully retrieved lag of consumer group "
                ++ gl_consumer_group_name request
            /\ exists history n text,
                trace w'
                = (history
                     ++ [Get ("/job/kafka_describe_consumer_group/" ++ PyStr.of_Z n
                                ++ "/artifact/output.txt")])%list
                /\ snd (get_reply rt history
                          ("/job/kafka_describe_consumer_group/" ++ PyStr.of_Z n
                             ++ "/artifact/output.txt")) = Ok (VStr text)
                /\ gl_lag r = extractLagTable text)).
Proof.
  unfold get_lag_of_kafka_consumer_group, try_except.
  match goal with
  | |- context [match ?body rt w with pair _ _ => _ end] =>
      destruct (body rt w) as [[r0|e] w1] eqn:Hbody
  end.
  2:{ do 2 eexists. split; [reflexivity|]. left. split; reflexivity. }
  exists r0, w1. split; [reflexivity|]. revert Hbody.
  unfold or_return, stage, try_except, bind, ret, raise, str_of_exn, str_of_status,
    new_GetLagOfKafkaConsumerGroupResponse.
  destruct (trigger_job _ rt w) as [[job|e1] w2];
    [|intros H; injection H as <- _; left; split; reflexivity].
  destruct (new_BuildParams _ _ rt w2) as [[params|e2] w3];
    [|intros H; injection H as <- _; left; split; reflexivity].
  destruct (wait_for_job_completion params rt w3) as [[waited|e3] w4];
    [|intros H; injection H as <- _; left; split; reflexivity].
  destruct (negb (status waited =? "SUCCESS")%string);
    [intros H; injection H as <- _; left; split; reflexivity|].
  destruct (new_ArtifactRequest _ _ _ rt w4) as [[artifact_request|e4] w5] eqn:Hrequest;
    [|intros H; injection H as <- _; left; split; reflexivity].
  destruct (get_artifact artifact_request rt w5) as [[output|e5] w6] eqn:Hartifact;
    [|intros H; injection H as <- _; left; split; reflexivity].
  destruct (truthy output);
    [|intros H; injection H as <- _; left; split; reflexivity].
  destruct output as [|b|n|text|items|fields]; try discriminate.
  cbn [as_str]. unfold ret. intros H. injection H as <- <-.
  right. split; [reflexivity|].
  apply new_ArtifactRequest_fields in Hrequest as [-> [Hname Hpath]].
  apply get_artifact_reply in Hartifact as [endpoint [-> [Htrace Hreply]]].
  rewrite Hname, Hpath in Htrace, Hreply.
  exists (trace w4), (ar_build_number artifact_request), text.
  now repeat split.
Qed.

(** A failure reported by [trigger_job] carries no build number. *)
Lemma trigger_job_failure (request : TriggerJobRequest) (rt : Runtime) (w : World)
      (job : TriggerJobResponse) (w1 : World) :
  trigger_job request rt w = (Ok job, w1) ->
  Jobs.success job = false ->
  build_number job = None.
Proof.
  unfold trigger_job, try_except.
  match goal with
  | |- context [match ?body rt w with pair _ _ => _ end] =>
      destruct (body rt w) as [[r|e] w2] eqn:Hbody
  end.
  2:{ cbn. intros H. injection H as <- _. reflexivity. }
  intros H. injection H as -> ->. revert Hbody. unfold bind at 1.
  destruct (post_wrapper_full_response (trigger_endpoint request) rt w)
    as [[posted|e] w2]; [|discriminate].
  destruct (negb (status_code posted =? 201)).
  { intros H. apply new_TriggerJobResponse_fields in H as [_ [Hn _]].
    intros _. now apply Hn. }
  destruct (Location posted) as [queue_location|].
  2:{ intros H. apply new_TriggerJobResponse_fields in H as [_ [Hn _]].
      intros _. now apply Hn. }
  unfold bind at 1.
  destruct (get_build_number_from_queue queue_location (tj_job_name request) rt w2)
    as [[found|e] w3]; [|discriminate].
  unfold bind at 1.
  destruct (latest_build_loop 5 (tj_job_name request) found rt w3)
    as [[found'|e] w4]; [|discriminate].
  destruct (is_None found') eqn:Hnone; cbn [negb].
  - intros H. apply new_TriggerJobResponse_fields in H as [_ [Hn _]].
    intros _. now apply Hn.
  - intros H. apply new_TriggerJobResponse_fields in H as [Hs _]. congruence.
Qed.

(** X18: when [trigger_job] reports a failure, [describe_kafka_topic]
    makes no further request and answers with a failure.  Its text is
    that of the validation error of [BuildParams], raised on the missing
    build number at the wait stage; the message of [trigger_job] itself
    is not passed on. *)
Theorem describe_kafka_topic_failed_trigger
        (request : DescribeKafkaTopicRequest) (rt : Runtime) (w : World)
        (job : TriggerJobResponse) (w1 : World) :
  trigger_job {| tj_job_name := "kafka_describe_topic";
                 parameters := Some ("?topic_name=" ++ topic_name request) |} rt w
  = (Ok job, w1) ->
  Jobs.success job = false ->
  describe_kafka_topic request rt w
  = (Ok {| Topics.artifact :=
             "Error waiting for describe job completion: "
               ++ str_exn rt (ValidationError "BuildParams" "build_number");
           Topics.success := false |},
     w1).
Proof.
  intros Htrigger Hfailed.
  pose proof (trigger_job_failure _ _ _ _ _ Htrigger Hfailed) as Hnone.
  unfold describe_kafka_topic, try_except, or_return, stage.
  unfold try_except at 1. unfold bind at 1. unfold bind at 1.
  rewrite Htrigger. cbn [ret].
  unfold try_except, bind, new_BuildParams, validated. rewrite Hnone.
  reflexivity.
Qed.

Lemma describe_kafka_topic_failed_trigger_witness :
  describe_kafka_topic {| topic_name := "orders" |} ci_rejects start
  = (Ok {| Topics.artifact :=
             "Error waiting for describe job completion: "
               ++ str_exn ci_rejects (ValidationError "BuildParams" "build_number");
           Topics.success := false |},
     after start (Post "/job/kafka_describe_topic/buildWithParameters?topic_name=orders") 0).
Proof.
  apply (describe_kafka_topic_failed_trigger {| topic_name := "orders" |} ci_rejects start
           {| Jobs.success := false;
              tj_message := "Unexpected response status code: 500";
              build_number := None |}); reflexivity.
Defined.

(** X19: when [trigger_job] reports a failure, the two actions on the
    describe-consumer-group job make no further request.
    [get_lag_of_kafka_consumer_group] answers with the text of the
    validation error of [BuildParams] and an empty lag list;
    [describe_kafka_consumer_group], whose handler for the wait stage
    reads an unbound [e], answers through its outermost handler with the
    text of that [UnboundLocalError]. *)
Theorem consumer_group_actions_failed_trigger
        (name : string) (rt : Runtime) (w : World)
        (job : TriggerJobResponse) (w1 : World) :
  trigger_job {| tj_job_name := "kafka_describe_consumer_group";
                 parameters := Some ("?group_name=" ++ name) |} rt w
  = (Ok job, w1) ->
  Jobs.success job = false ->
  describe_kafka_consumer_group {| dcg_consumer_group_name := name |} rt w
  = (Ok {| dcg_artifact :=
             "Error with entire try section: " ++ str_exn rt (UnboundLocalError "e");
           dcg_success := false |},
     w1)
  /\ get_lag_of_kafka_consumer_group {| gl_consumer_group_name := name |} rt w
     = (Ok {| gl_lag := [];
              gl_success :=
                "False: Error waiting for get lag job completion: "
                  ++ str_exn rt (ValidationError "BuildParams" "build_number") |},
        w1).
Proof.
  intros Htrigger Hfailed.
  pose proof (trigger_job_failure _ _ _ _ _ Htrigger Hfailed) as Hnone.
  split.
  - unfold describe_kafka_consumer_group, try_except, or_return, stage.
    unfold try_except at 1. unfold bind at 1. unfold bind at 1.
    cbn [dcg_consumer_group_name]. rewrite Htrigger. cbn [ret].
    unfold try_except, bind, new_BuildParams, validated. rewrite Hnone.
    reflexivity.
  - unfold get_lag_of_kafka_consumer_group, try_except, or_return, stage.
    unfold try_except at 1. unfold bind at 1. unfold bind at 1.
    cbn [gl_consumer_group_name]. rewrite Htrigger. cbn [ret].
    unfold try_except, bind, new_BuildParams, validated. rewrite Hnone.
    reflexivity.
Qed.

Lemma consumer_group_actions_failed_trigger_witness :
  describe_kafka_consumer_group {| dcg_consumer_group_name := "billing" |} ci_rejects start
  = (Ok {| dcg_artifact :=
             "Error with entire try section: "
               ++ str_exn ci_rejects (UnboundLocalError "e");
           dcg_success := false |},
     after start
           (Post "/job/kafka_describe_consumer_group/buildWithParameters?group_name=billing")
           0)
  /\ get_lag_of_kafka_consumer_group {| gl_consumer_group_name := "billing" |}
       ci_rejects start
     = (Ok {| gl_lag := [];
              gl_success :=
                "False: Error waiting for get lag job completion: "
                  ++ str_exn ci_rejects (ValidationError "BuildParams" "build_number") |},
        after start
              (Post "/job/kafka_describe_consumer_group/buildWithParameters?group_name=billing")
              0).
Proof.
  apply (consumer_group_actions_failed_trigger "billing" ci_rejects start
           {| Jobs.success := false;
              tj_message := "Unexpected response status code: 500";
              build_number := None |}); reflexivity.
Defined.

(** X20: the stages of [get_lag_of_kafka_consumer_group] compose: when
    the trigger gives build [b], the wait for that build ends with
    status [SUCCESS] and the artifact [output.txt] of the build is a
    non-empty text, the answer is the success text with the lag table of
    that text, and the fetch of the artifact is the last request made. *)
Theorem get_lag_of_kafka_consumer_group_success
        (name : string) (rt : Runtime) (w w1 w2 : World)
        (job : TriggerJobResponse) (b : string) (waited : JobStatusResponse)
        (n d : Z) (text : string) :
  trigger_job {| tj_job_name := "kafka_describe_consumer_group";
                 parameters := Some ("?group_name=" ++ name) |} rt w
  = (Ok job, w1) ->
  build_number job = Some b ->
  wait_for_job_completion
    {| bp_job_name := "kafka_describe_consumer_group"; bp_build_number := b |} rt w1
  = (Ok waited, w2) ->
  status waited = "SUCCESS" ->
  PyStr.int b = Some n ->
  get_reply rt (trace w2)
    ("/job/kafka_describe_consumer_group/" ++ PyStr.of_Z n ++ "/artifact/output.txt")
  = (d, Ok (VStr text)) ->
  text <> "" ->
  get_lag_of_kafka_consumer_group {| gl_consumer_group_name := name |} rt w
  = (Ok {| gl_lag := extractLagTable text;
           gl_success := "True: Successfully retrieved lag of consumer group " ++ name |},
     after w2
           (Get ("/job/kafka_describe_consumer_group/" ++ PyStr.of_Z n
                   ++ "/artifact/output.txt")) d).
Proof.
  intros Htrigger Hb Hwait Hstatus Hint Hreply Htext.
  apply String.eqb_neq in Htext.
  unfold get_lag_of_kafka_consumer_group, new_BuildParams, new_ArtifactRequest,
    get_artifact, new_GetLagOfKafkaConsumerGroupResponse, or_return, stage.
  unfold try_except, bind, validated, ret, raise, get_wrapper, int_validator.
  cbn [gl_consumer_group_name]. rewrite Htrigger. cbv beta iota.
  rewrite Hb. cbv beta iota. rewrite Hwait. cbv beta iota.
  rewrite Hstatus, String.eqb_refl. cbn [negb]. rewrite Hint. cbv beta iota.
  cbn [ar_job_name ar_build_number artifact_path append] in Hreply |- *.
  rewrite Hreply. cbn [truthy]. rewrite Htext. reflexivity.
Qed.

Lemma get_lag_of_kafka_consumer_group_success_witness :
  get_lag_of_kafka_consumer_group {| gl_consumer_group_name := "billing" |}
    (ci_succeeds lag_artifact) start
  = (Ok {| gl_lag := extractLagTable lag_artifact;
           gl_success := "True: Successfully retrieved lag of consumer group "
                           ++ "billing" |},
     after {| trace := [Post "/job/kafka_describe_consumer_group/buildWithParameters?group_name=billing";
                        GetFull queue_item;
                        Get "/job/kafka_describe_consumer_group/12/api/json?tree=result";
                        Get "/job/kafka_describe_consumer_group/12/consoleText"];
              now := 0 |}
           (Get ("/job/kafka_describe_consumer_group/" ++ PyStr.of_Z 12
                   ++ "/artifact/output.txt")) 0)
  /\ extractLagTable lag_artifact = [{| topic := "topicA"; lag := 2 |}].
Proof.
  split; [|reflexivity].
  apply (get_lag_of_kafka_consumer_group_success "billing" (ci_succeeds lag_artifact)
           start
           {| trace := [Post "/job/kafka_describe_consumer_group/buildWithParameters?group_name=billing";
                        GetFull queue_item];
              now := 0 |}
           {| trace := [Post "/job/kafka_describe_consumer_group/buildWithParameters?group_name=billing";
                        GetFull queue_item;
                        Get "/job/kafka_describe_consumer_group/12/api/json?tree=result";
                        Get "/job/kafka_describe_consumer_group/12/consoleText"];
              now := 0 |}
           {| Jobs.success := true; tj_message := "Job triggered successfully.";
              build_number := Some "12" |}
           "12"
           {| status := "SUCCESS"; message := "Job status: SUCCESS";
              build_logs := Some "Finished: SUCCESS" |}
           12 0 lag_artifact); try reflexivity.
  discriminate.
Defined.

(** X21: the stages of [describe_kafka_topic] compose: when the trigger
    gives build [b], the wait for that build ends with status [SUCCESS]
    and the artifact [output.txt] of the build is a non-empty text, the
    answer is a success that carries that text unchanged. *)
Theorem describe_kafka_topic_success
        (request : DescribeKafkaTopicRequest) (rt : Runtime) (w w1 w2 : World)
        (job : TriggerJobResponse) (b : string) (waited : JobStatusResponse)
        (n d : Z) (text : string) :
  trigger_job {| tj_job_name := "kafka_describe_topic";
                 parameters := Some ("?topic_name=" ++ topic_name request) |} rt w
  = (Ok job, w1) ->
  build_number job = Some b ->
  wait_for_job_completion
    {| bp_job_name := "kafka_describe_topic"; bp_build_number := b |} rt w1
  = (Ok waited, w2) ->
  status waited = "SUCCESS" ->
  PyStr.int b = Some n ->
  get_reply rt (trace w2)
    ("/job/kafka_describe_topic/" ++ PyStr.of_Z n ++ "/artifact/output.txt")
  = (d, Ok (VStr text)) ->
  text <> "" ->
  describe_kafka_topic request rt w
  = (Ok {| Topics.artifact := text; Topics.success := true |},
     after w2
           (Get ("/job/kafka_describe_topic/" ++ PyStr.of_Z n ++ "/artifact/output.txt"))
           d).
Proof.
  intros Htrigger Hb Hwait Hstatus Hint Hreply Htext.
  apply String.eqb_neq in Htext.
  unfold describe_kafka_topic, new_BuildParams, new_ArtifactRequest,
    get_artifact, new_DescribeKafkaTopicResponse, or_return, stage.
  unfold try_except, bind, validated, ret, raise, get_wrapper, int_validator.
  rewrite Htrigger. cbv beta iota.
  rewrite Hb. cbv beta iota. rewrite Hwait. cbv beta iota.
  rewrite Hstatus, String.eqb_refl. cbn [negb]. rewrite Hint. cbv beta iota.
  cbn [ar_job_name ar_build_number artifact_path append] in Hreply |- *.
  rewrite Hreply. cbn [truthy]. rewrite Htext. reflexivity.
Qed.

Lemma describe_kafka_topic_success_witness :
  describe_kafka_topic {| topic_name := "orders" |} (ci_succeeds two_names) start
  = (Ok {| Topics.artifact := two_names; Topics.success := true |},
     after {| trace := [Post "/job/kafka_describe_topic/buildWithParameters?topic_name=orders";
                        GetFull queue_item;
                        Get "/job/kafka_describe_topic/12/api/json?tree=result";
                        Get "/job/kafka_describe_topic/12/consoleText"];
              now := 0 |}
           (Get ("/job/kafka_describe_topic/" ++ PyStr.of_Z 12 ++ "/artifact/output.txt"))
           0).
Proof.
  apply (describe_kafka_topic_success {| topic_name := "orders" |}
           (ci_succeeds two_names) start
           {| trace := [Post "/job/kafka_describe_topic/buildWithParameters?topic_name=orders";
                        GetFull queue_item];
              now := 0 |}
           {| trace := [Post "/job/kafka_describe_topic/buildWithParameters?topic_name=orders";
                        GetFull queue_item;
                        Get "/job/kafka_describe_topic/12/api/json?tree=result";
                        Get "/job/kafka_describe_topic/12/consoleText"];
              now := 0 |}
           {| Jobs.success := true; tj_message := "Job triggered successfully.";
              build_number := Some "12" |}
           "12"
           {| status := "SUCCESS"; message := "Job status: SUCCESS";
              build_logs := Some "Finished: SUCCESS" |}
           12 0 two_names); try reflexivity.
  discriminate.
Defined.

(** X22: [get_lag_of_kafka_consumer_group] has no job of its own: for
    the same group it makes exactly the requests and sleeps of
    [describe_kafka_consumer_group], whatever the CI service does. *)
Theorem get_lag_makes_the_calls_of_describe
        (name : string) (rt : Runtime) (w : World) :
  snd (get_lag_of_kafka_consumer_group {| gl_consumer_group_name := name |} rt w)
  = snd (describe_kafka_consumer_group {| dcg_consumer_group_name := name |} rt w).
Proof.
  unfold get_lag_of_kafka_consumer_group, describe_kafka_consumer_group,
    new_GetLagOfKafkaConsumerGroupResponse, new_DescribeKafkaConsumerGroupResponse,
    or_return, stage.
  unfold try_except, bind, validated, ret, raise, str_of_exn, str_of_status.
  cbn [gl_consumer_group_name dcg_consumer_group_name].
  destruct (trigger_job _ rt w) as [[job|e1] w1]; [|reflexivity].
  destruct (new_BuildParams _ _ rt w1) as [[params|e2] w2]; [|reflexivity].
  destruct (wait_for_job_completion params rt w2) as [[waited|e3] w3]; [|reflexivity].
  destruct (negb (status waited =? "SUCCESS")%string); [reflexivity|].
  destruct (new_ArtifactRequest _ _ _ rt w3) as [[artifact_request|e4] w4];
    [|reflexivity].
  destruct (get_artifact artifact_request rt w4) as [[output|e5] w5]; [|reflexivity].
  destruct output as [|[|]|n|text|items|fields]; cbn [truthy]; try reflexivity.
  all: match goal with
       | |- context [if ?c then _ else _] => destruct c; reflexivity
       | |- context [match ?l with [] => _ | _ => _ end] => destruct l; reflexivity
       end.
Qed.

Lemma costs_as_str (v : value) : costs (as_str v) 0 0.
Proof. apply costs_silent. now destruct v. Qed.

(** Builds the bound of an action from those of its three stages. *)
Ltac action_cost :=
  pose proof costs_trigger_job as Htrigger;
  pose proof costs_wait_for_job_completion as Hwait;
  pose proof costs_as_str as Hstr;
  unfold new_BuildParams, new_ArtifactRequest, get_artifact;
  cbv zeta;
  eapply costs_weaken; [cost|simpl; lia|simpl; lia].

(** X23: whatever the CI service does, each of the five Kafka actions
    makes at most 28 requests (16 to trigger, 11 to wait, 1 to fetch the
    artifact) and sleeps at most 120 seconds in all. *)
Theorem kafka_actions_bounded :
  (forall request, costs (describe_kafka_topic request) 28 120)
  /\ (forall request, costs (list_kafka_topics request) 28 120)
  /\ (forall request, costs (describe_kafka_consumer_group request) 28 120)
  /\ (forall request, costs (list_kafka_consumer_groups request) 28 120)
  /\ (forall request, costs (get_lag_of_kafka_consumer_group request) 28 120).
Proof.
  repeat split; intros request.
  - unfold describe_kafka_topic, new_DescribeKafkaTopicResponse. action_cost.
  - unfold list_kafka_topics, new_ListKafkaTopicsResponse. action_cost.
  - unfold describe_kafka_consumer_group, new_DescribeKafkaConsumerGroupResponse.
    action_cost.
  - unfold list_kafka_consumer_groups, new_ListKafkaConsumerGroupsResponse.
    action_cost.
  - unfold get_lag_of_kafka_consumer_group, new_GetLagOfKafkaConsumerGroupResponse.
    action_cost.
Qed.

(** * Further properties of the cloud-health actions *)

(** X24: [production_cloud_health] on a raw location has three cases.  A
    listed code gives the dashboard link built from it.  A listed code
    followed by a line feed passes the request model and gives [None].
    Every other text is refused by the request model. *)
Theorem production_cloud_health_cases (v : string) :
  (In v production_locations ->
   invoke_production v
   = Ok (Some {| cloud_link := "https://grafana.sso.plumenet.io/d/" ++ v
                                 ++ "-mocha-and-pytests/mocha-and-pytests" |}))
  /\ (In v (map (fun a => a ++ PyStr.LF) production_locations) ->
      invoke_production v = Ok None)
  /\ (~ In v production_locations ->
      ~ In v (map (fun a => a ++ PyStr.LF) production_locations) ->
      invoke_production v
      = Raise (ValidationError "ProductionCloudHealthRequest" "cloud_location")).
Proof.
  split; [|split].
  - intros Hin. simpl in Hin.
    repeat (destruct Hin as [<-|Hin]; [reflexivity|]). contradiction.
  - intros Hin. simpl in Hin.
    repeat (destruct Hin as [<-|Hin]; [reflexivity|]). contradiction.
  - intros Hout Hout'.
    unfold invoke_production, new_ProductionCloudHealthRequest.
    destruct (regex_match_alternatives production_locations v) eqn:Hmatch;
      [|reflexivity].
    apply regex_match_alternatives_spec in Hmatch. tauto.
Qed.

(** X25: [development_cloud_health] on a raw location has the same three
    cases over its six codes. *)
Theorem development_cloud_health_cases (v : string) :
  (In v development_locations ->
   invoke_development v
   = Ok (Some {| dev_cloud_link := "https://grafana.sso.plume.tech/d/" ++ v
                                     ++ "-mocha-and-pytests/mocha-and-pytests" |}))
  /\ (In v (map (fun a => a ++ PyStr.LF) development_locations) ->
      invoke_development v = Ok None)
  /\ (~ In v development_locations ->
      ~ In v (map (fun a => a ++ PyStr.LF) development_locations) ->
      invoke_development v
      = Raise (ValidationError "DevelopmentCloudHealthRequest" "cloud_location")).
Proof.
  split; [|split].
  - intros Hin. simpl in Hin.
    repeat (destruct Hin as [<-|Hin]; [reflexivity|]). contradiction.
  - intros Hin. simpl in Hin.
    repeat (destruct Hin as [<-|Hin]; [reflexivity|]). contradiction.
  - intros Hout Hout'.
    unfold invoke_development, new_DevelopmentCloudHealthRequest.
    destruct (regex_match_alternatives development_locations v) eqn:Hmatch;
      [|reflexivity].
    apply regex_match_alternatives_spec in Hmatch. tauto.
Qed.

(** * Edge cases *)

Lemma split_from_no_separator (sep : string) :
  forall (s cur : string) (i : Z),
    0 <= i ->
    PyStr.find_from sep s i = -1 ->
    PyStr.split_from sep s cur O = [cur ++ s].
Proof.
  induction s as [|c s IH]; intros cur i Hi Hfind.
  - cbn [PyStr.split_from]. now rewrite append_empty_r.
  - cbn [PyStr.split_from PyStr.find_from] in *.
    destruct (prefix sep (String c s)); [lia|].
    rewrite (IH _ (i + 1)) by (lia || assumption).
    now rewrite append_assoc'.
Qed.

(** X26: the table is cut into lines at carriage returns only: a text
    that has none after stripping, such as a table whose lines end with
    line feeds, is one header line and gives no entry at all. *)
Theorem extract_lag_values_without_carriage_return (text : string) :
  PyStr.find (PyStr.strip text) PyStr.CR = -1 ->
  lag_lines text = [] /\ extract_lag_values text = [].
Proof.
  intros Hfind.
  assert (Hlines : lag_lines text = []).
  { unfold lag_lines, PyStr.split.
    now rewrite (split_from_no_separator _ _ _ 0 (Z.le_refl 0) Hfind). }
  split; [exact Hlines|].
  unfold extract_lag_values. now rewrite Hlines.
Qed.

Lemma extract_lag_values_without_carriage_return_witness :
  lag_lines lag_unix = [] /\ extract_lag_values lag_unix = [].
Proof.
  apply (extract_lag_values_without_carriage_return lag_unix). reflexivity.
Defined.

Lemma queue_loop_stays_queued (queue_location : string) (rt : Runtime) (n : nat) :
  stays_queued rt queue_location ->
  forall w,
  exists w',
    queue_loop n queue_location rt w = (Ok VNone, w')
    /\ trace w' = (trace w ++ queue_rounds queue_location n)%list.
Proof.
  intros Hqueued. induction n as [|n IH]; intros w.
  - exists w. cbn. now rewrite app_nil_r.
  - cbn [queue_loop queue_rounds].
    unfold bind at 1. unfold get_wrapper_full_response.
    destruct (Hqueued (trace w)) as [d [queue_response [Hreply [Hfound Hbody]]]].
    rewrite Hreply.
    assert (Hrest : forall w0,
               exists w',
                 (time_sleep 2 ;; queue_loop n queue_location) rt w0 = (Ok VNone, w')
                 /\ trace w'
                    = (trace w0 ++ Sleep 2 :: queue_rounds queue_location n)%list).
    { intros w0. unfold bind. cbn [time_sleep].
      destruct (IH (after w0 (Sleep 2) (2 * ticks_per_second))) as [w' [Hrun Htrace]].
      rewrite Hrun. exists w'. split; [reflexivity|].
      rewrite Htrace. cbn [after trace]. now rewrite <- app_assoc. }
    destruct (Z.eqb_spec (status_code queue_response) 200) as [Hcode|Hcode].
    + destruct (Hbody Hcode) as [fields [Hjson Hmissing]].
      unfold bind at 1. unfold lift at 1. rewrite Hjson.
      unfold bind at 1. unfold lift at 1. cbn [contains]. rewrite Hmissing.
      cbv beta iota.
      destruct (Hrest (after w (GetFull queue_location) d)) as [w' [Hrun Htrace]].
      exists w'. split; [exact Hrun|].
      rewrite Htrace. cbn [after trace]. now rewrite <- app_assoc.
    + destruct (Z.eqb_spec (status_code queue_response) 404) as [Hgone|_];
        [now contradiction Hfound|].
      destruct (Hrest (after w (GetFull queue_location) d)) as [w' [Hrun Htrace]].
      exists w'. split; [exact Hrun|].
      rewrite Htrace. cbn [after trace]. now rewrite <- app_assoc.
Qed.

(** X27: while the queue item stays queued (it is never reported as not
    found and never names a build), the queue resolution uses all of its
    10 attempts, each a poll followed by a sleep of 2 seconds, and then
    yields no build number. *)
Theorem get_build_number_from_queue_exhausted
        (queue_location job_name : string) (rt : Runtime) (w : World) :
  stays_queued rt queue_location ->
  fst (get_build_number_from_queue queue_location job_name rt w) = Ok VNone
  /\ trace (snd (get_build_number_from_queue queue_location job_name rt w))
     = (trace w ++ queue_rounds queue_location 10)%list.
Proof.
  intros Hqueued. unfold get_build_number_from_queue.
  destruct (queue_loop_stays_queued queue_location rt 10 Hqueued w)
    as [w' [Hrun Htrace]].
  rewrite Hrun. now split.
Qed.

Lemma get_build_number_from_queue_exhausted_witness :
  stays_queued ci_queued queue_item
  /\ fst (get_build_number_from_queue queue_item "kafka_list_topics" ci_queued start)
     = Ok VNone
  /\ trace (snd (get_build_number_from_queue queue_item "kafka_list_topics"
                   ci_queued start))
     = (trace start ++ queue_rounds queue_item 10)%list.
Proof.
  assert (Hqueued : stays_queued ci_queued queue_item).
  { intros history. do 2 eexists. split; [reflexivity|].
    split; [discriminate|]. intros _. eexists. split; reflexivity. }
  split; [exact Hqueued|].
  exact (get_build_number_from_queue_exhausted queue_item "kafka_list_topics"
           ci_queued start Hqueued).
Defined.

(** X28: when the wait does not end with status [SUCCESS] (the job
    failed, or the wait was given up), [describe_kafka_topic] fetches no
    artifact and answers with a failure whose text embeds the status
    response. *)
Theorem describe_kafka_topic_job_not_successful
        (request : DescribeKafkaTopicRequest) (rt : Runtime) (w w1 w2 : World)
        (job : TriggerJobResponse) (b : string) (waited : JobStatusResponse) :
  trigger_job {| tj_job_name := "kafka_describe_topic";
                 parameters := Some ("?topic_name=" ++ topic_name request) |} rt w
  = (Ok job, w1) ->
  build_number job = Some b ->
  wait_for_job_completion
    {| bp_job_name := "kafka_describe_topic"; bp_build_number := b |} rt w1
  = (Ok waited, w2) ->
  status waited <> "SUCCESS" ->
  describe_kafka_topic request rt w
  = (Ok {| Topics.artifact :=
             "Jenkins job failed: Possibly no match for your topic. "
               ++ str_status rt waited;
           Topics.success := false |},
     w2).
Proof.
  intros Htrigger Hb Hwait Hstatus.
  apply String.eqb_neq in Hstatus.
  unfold describe_kafka_topic, new_BuildParams, new_DescribeKafkaTopicResponse,
    or_return, stage.
  unfold try_except, bind, validated, ret, raise, str_of_status.
  rewrite Htrigger. cbv beta iota.
  rewrite Hb. cbv beta iota. rewrite Hwait. cbv beta iota.
  rewrite Hstatus. reflexivity.
Qed.

Lemma describe_kafka_topic_job_not_successful_witness :
  describe_kafka_topic {| topic_name := "orders" |} ci_left_queue start
  = (Ok {| Topics.artifact :=
             "Jenkins job failed: Possibly no match for your topic. "
               ++ str_status ci_left_queue
                    {| status := ""; message := retries_message; build_logs := None |};
           Topics.success := false |},
     snd (wait_for_job_completion
            {| bp_job_name := "kafka_describe_topic"; bp_build_number := "42" |}
            ci_left_queue
            (snd (trigger_job
                    {| tj_job_name := "kafka_describe_topic";
                       parameters := Some "?topic_name=orders" |}
                    ci_left_queue start)))).
Proof.
  apply (describe_kafka_topic_job_not_successful {| topic_name := "orders" |}
           ci_left_queue start
           (snd (trigger_job
                   {| tj_job_name := "kafka_describe_topic";
                      parameters := Some "?topic_name=orders" |}
                   ci_left_queue start))
           _
           {| Jobs.success := true; tj_message := "Job triggered successfully.";
              build_number := Some "42" |}
           "42"
           {| status := ""; message := retries_message; build_logs := None |});
    try reflexivity.
  discriminate.
Defined.
